(** * ingenialink-python, examples/scope/scope.py

    A shallow embedding of the scope example: the homing runner
    ([HomingRunner.run]), the window's state machine ([ScopeWindow.setState]
    and the button slots), the scope life cycle ([enableScope],
    [disableScope]) and the rolling sample buffer
    ([on_timerPlotUpdate_expired]).

    Python exceptions are modelled by a result type, attribute mutation by
    explicit state passing, and the calls into the ingenialink library (axis
    and poller), which may raise, by an abstract environment that decides the
    outcome of every call. *)

From Stdlib Require Import Ascii.
From Stdlib Require Import String List ZArith QArith Qround Bool Arith Lia.
From Stdlib Require HexString.
Import ListNotations.

Close Scope Q_scope.

Set Implicit Arguments.

(** ** Constants of the source *)

(** [ScopeWindow._AXIS_TIMEOUT], ms. *)
Definition _AXIS_TIMEOUT : Z := 100.
(** [ScopeWindow._FPS], plot refresh rate. *)
Definition _FPS : Z := 30.
(** [ScopeWindow._N_SAMPLES]. *)
Definition _N_SAMPLES : Z := 1000.
(** [ScopeWindow._POLLER_T_S], ms. *)
Definition _POLLER_T_S : Z := 10.
(** [ScopeWindow._POLLER_BUF_SZ]. *)
Definition _POLLER_BUF_SZ : Z := 100.
(** [ScopeWindow._PRANGE], +/- deg. *)
Definition _PRANGE : Z := 360.
(** [ScopeWindow._VRANGE], +/- rps. *)
Definition _VRANGE : Z := 40.
(** [ScopeWindow._HOMING_TIMEOUT], ms. *)
Definition _HOMING_TIMEOUT : Z := 150000.

(** The buffer size as a list length. *)
Definition N : nat := Z.to_nat _N_SAMPLES.

(** ** The ingenialink library as seen by the example *)

(** [il.MODE_HOMING], [il.MODE_PP], [il.MODE_PV]. *)
Inductive Mode := MODE_HOMING | MODE_PP | MODE_PV.

(** The two registers polled by the scope (module constants [POS_ACTUAL],
    [VEL_ACTUAL]). *)
Inductive Register := POS_ACTUAL | VEL_ACTUAL.

(** Every call the example makes into the library.  Attribute assignments on
    the axis ([axis.mode = ...], [axis.units_pos = ...]) are property setters
    that talk to the drive, hence calls as well. *)
Inductive DevOp :=
| SetMode (m : Mode)                         (* axis.mode = m *)
| SetUnitsPos                                (* axis.units_pos = il.UNITS_POS_DEG *)
| SetUnitsVel                                (* axis.units_vel = il.UNITS_VEL_RPS *)
| Enable                                     (* axis.enable() *)
| Disable                                    (* axis.disable() *)
| HomingStart                                (* axis.homing_start() *)
| HomingWait (timeout : Z)                   (* axis.homing_wait(timeout) *)
| SetPosition (v : Z)                        (* axis.position = v *)
| SetVelocity (v : Z)                        (* axis.velocity = v *)
| PollerNew (reg : Register) (t_s sz : Z)    (* il.Poller(axis, reg, t_s, sz) *)
| PollerStart                                (* poller.start() *)
| PollerStop.                                (* poller.stop() *)

(** The environment: a state of the drive and, for every call, whether it
    returns ([None]) or raises an exception carrying a message ([Some msg]),
    together with the next state of the drive. *)
Class Device (D : Type) := dev_call : DevOp -> D -> option string * D.

(** Exceptions the modelled code can meet; all are subclasses of Python's
    [Exception]. *)
Inductive Exn :=
| ILError (msg : string)          (* raised by the ingenialink library *)
| AttributeError (msg : string)   (* attribute read before it was ever set *)
| ValueError (msg : string).      (* numpy: shapes cannot be broadcast *)

(** [str(exc)]. *)
Definition str (e : Exn) : string :=
  match e with ILError m | AttributeError m | ValueError m => m end.

(** What a run leaves behind, in order: library calls (logged when issued,
    whether they return or raise), emissions of [HomingRunner.finished],
    starts and stops of [_timerPlotUpdate], and the start of the homing
    thread. *)
Inductive Event :=
| Call (op : DevOp)
| Emit (msg : string)
| TimerStart (interval_ms : Q)
| TimerStop
| ThreadStart.

(** ** numpy operations on one-dimensional arrays *)

(** [np.zeros(n)]. *)
Definition np_zeros (n : Z) : list Q := repeat 0%Q (Z.to_nat n).

(** [np.arange(start, stop, step)]: [ceil((stop - start) / step)] values
    [start + i * step].  Floats are taken as exact rationals. *)
Definition np_arange (start stop step : Q) : list Q :=
  map (fun i => (start + inject_Z (Z.of_nat i) * step)%Q)
      (seq 0 (Z.to_nat (Qceiling ((stop - start) / step)))).

(** [np.roll(a, -s)]: element [i] of the result is element [(i + s) mod n]
    of [a]. *)
Definition np_roll_left (a : list Q) (s : nat) : list Q :=
  let k := s mod (length a) in skipn k a ++ firstn k a.

(** [a[-s:] = v] for [s > 0]: the slice holds the last [min s (len a)]
    elements; [v] must have that many elements, or one element, which numpy
    broadcasts; anything else raises [ValueError]. *)
Definition set_tail (a : list Q) (s : nat) (v : list Q) : option (list Q) :=
  let k := Nat.min s (length a) in
  let keep := firstn (length a - k) a in
  if length v =? k then Some (keep ++ v)
  else match v with
       | [x] => Some (keep ++ repeat x k)
       | _ => None
       end.

Arguments np_zeros : simpl never.
Arguments np_arange : simpl never.
Arguments np_roll_left : simpl never.
Arguments set_tail : simpl never.

(** ** The window *)

(** [stateInit, stateIdle, stateHoming, statePosition, stateVelocity =
    range(5)]. *)
Inductive AxisState :=
  stateInit | stateIdle | stateHoming | statePosition | stateVelocity.

Definition AxisState_eqb (a b : AxisState) : bool :=
  match a, b with
  | stateInit, stateInit | stateIdle, stateIdle | stateHoming, stateHoming
  | statePosition, statePosition | stateVelocity, stateVelocity => true
  | _, _ => false
  end.

(** The widget properties that [setState] and the slots write. *)
Record Widgets := mkWidgets {
  cboxAxes_enabled : bool;
  tabHoming_enabled : bool;
  btnHoming_enabled : bool;
  lblHomingStatus : string;
  tabPosition_enabled : bool;
  dialPosition_enabled : bool;
  btnPosition_text : string;
  tabVelocity_enabled : bool;
  dialVelocity_enabled : bool;
  btnVelocity_text : string;
  plot_label : string * string;     (* left axis: text, units *)
  plot_yrange : Z * Z
}.

(** The [il.Poller] object held in [self._poller]. *)
Record Poller := mkPoller {
  poller_reg : Register;
  poller_running : bool
}.

(** What [scopewindow.ui] gives before any state is set: every widget
    enabled, no text. *)
Definition ui_loaded : Widgets :=
  mkWidgets true true true EmptyString true true EmptyString
            true true EmptyString (EmptyString, EmptyString) (0, 0)%Z.

(** The outcome of a Python statement: it completes with a value, or an
    exception leaves it. *)
Inductive Result (A : Type) :=
| Ok (a : A)
| Raise (e : Exn).
Arguments Raise {A} e.

Section Scope.

Context {D : Type} {Dev : Device D}.

(** The window object together with the drive behind the selected axis.
    [_poller = None] stands for the attribute never having been assigned;
    [_data] and [_time] are assigned right after [_poller] and read only
    after it. *)
Record World := mkWorld {
  dev : D;
  _state : AxisState;
  ui : Widgets;
  _poller : option Poller;
  timer_active : bool;              (* self._timerPlotUpdate.isActive() *)
  _data : list Q;
  _time : list Q;
  curve : list Q * list Q           (* last self._curve.setData(x, y) *)
}.

Definition set_dev (d : D) (w : World) : World :=
  mkWorld d (_state w) (ui w) (_poller w) (timer_active w) (_data w) (_time w) (curve w).
Definition set_state (s : AxisState) (w : World) : World :=
  mkWorld (dev w) s (ui w) (_poller w) (timer_active w) (_data w) (_time w) (curve w).
Definition set_ui (u : Widgets) (w : World) : World :=
  mkWorld (dev w) (_state w) u (_poller w) (timer_active w) (_data w) (_time w) (curve w).
Definition set_poller (p : option Poller) (w : World) : World :=
  mkWorld (dev w) (_state w) (ui w) p (timer_active w) (_data w) (_time w) (curve w).
Definition set_timer (b : bool) (w : World) : World :=
  mkWorld (dev w) (_state w) (ui w) (_poller w) b (_data w) (_time w) (curve w).
Definition set_data (a : list Q) (w : World) : World :=
  mkWorld (dev w) (_state w) (ui w) (_poller w) (timer_active w) a (_time w) (curve w).
Definition set_time (a : list Q) (w : World) : World :=
  mkWorld (dev w) (_state w) (ui w) (_poller w) (timer_active w) (_data w) a (curve w).
Definition set_curve (c : list Q * list Q) (w : World) : World :=
  mkWorld (dev w) (_state w) (ui w) (_poller w) (timer_active w) (_data w) (_time w) c.

(** *** A monad for Python statements: state, log and exceptions *)

Record Out (A : Type) := mkOut {
  res : Result A;
  log : list Event;
  world : World
}.

Definition M (A : Type) := World -> Out A.

Definition ret {A} (a : A) : M A := fun w => mkOut (Ok a) [] w.

Definition raise {A} (e : Exn) : M A := fun w => mkOut (Raise e) [] w.

Definition bind {A B} (m : M A) (k : A -> M B) : M B := fun w =>
  match m w with
  | mkOut (Ok a) l w1 =>
      match k a w1 with
      | mkOut r l' w2 => mkOut r (l ++ l') w2
      end
  | mkOut (Raise e) l w1 => mkOut (Raise e) l w1
  end.

(** [try: body / except Exception as exc: handler(exc)]. *)
Definition try_except {A} (body : M A) (handler : Exn -> M A) : M A := fun w =>
  match body w with
  | mkOut (Ok a) l w1 => mkOut (Ok a) l w1
  | mkOut (Raise e) l w1 =>
      match handler e w1 with
      | mkOut r l' w2 => mkOut r (l ++ l') w2
      end
  end.

(** [try: body / finally: fin]: [fin] runs on every exit of [body]; an
    exception of [fin] replaces the outcome of [body]. *)
Definition try_finally {A} (body : M A) (fin : M unit) : M A := fun w =>
  match body w with
  | mkOut r l w1 =>
      match fin w1 with
      | mkOut (Ok _) l' w2 => mkOut r (l ++ l') w2
      | mkOut (Raise e) l' w2 => mkOut (Raise e) (l ++ l') w2
      end
  end.

Definition tell (e : Event) : M unit := fun w => mkOut (Ok tt) [e] w.

Definition modify (f : World -> World) : M unit := fun w => mkOut (Ok tt) [] (f w).

Definition gets {A} (f : World -> A) : M A := fun w => mkOut (Ok (f w)) [] w.

(** A call into the library. *)
Definition il_call (op : DevOp) : M unit := fun w =>
  match dev_call op (dev w) with
  | (None, d) => mkOut (Ok tt) [Call op] (set_dev d w)
  | (Some msg, d) => mkOut (Raise (ILError msg)) [Call op] (set_dev d w)
  end.

End Scope.

Arguments World D : clear implicits.
Arguments M D A : clear implicits.
Arguments Out D A : clear implicits.

Declare Scope py_scope.
Delimit Scope py_scope with py.
Notation "x <- m ;; k" := (bind m (fun x => k))
  (at level 61, m at next level, right associativity) : py_scope.
Notation "m ;; k" := (bind m (fun _ => k))
  (at level 61, right associativity) : py_scope.
Open Scope py_scope.

(** ** The program *)

Section Program.

Context {D : Type} {Dev : Device D}.

Local Abbreviation Py := (M D).

(** *** HomingRunner *)

(** [self.finished.emit(msg)]. *)
Definition finished_emit (msg : string) : Py unit := tell (Emit msg).

(** The body of the first [try] of [run]: the setup step. *)
Definition homing_setup : Py unit :=
  il_call (SetMode MODE_HOMING) ;;
  il_call Enable.

(** The two calls that open the second [try] of [run]: the wait step. *)
Definition homing_wait_step (timeout : Z) : Py unit :=
  il_call HomingStart ;;
  il_call (HomingWait timeout).

(** [HomingRunner.run], with [self._timeout = timeout] and [self._axis] the
    drive of the world. *)
Definition HomingRunner_run (timeout : Z) : Py unit :=
  try_except
    homing_setup
    (fun exc => finished_emit (String.append "Error: " (str exc))) ;;
  try_finally
    (try_except
       (homing_wait_step timeout ;;
        finished_emit "Finished")
       (fun exc => finished_emit (String.append "Error: " (str exc))))
    (il_call Disable).

(** *** ScopeWindow *)

(** The widget writes of [setState], one branch per state. *)
Definition state_widgets (state : AxisState) (u : Widgets) : Widgets :=
  match state with
  | stateInit =>
      (* uic.loadUi(...), then the plot set-up *)
      mkWidgets (cboxAxes_enabled ui_loaded) (tabHoming_enabled ui_loaded)
                (btnHoming_enabled ui_loaded) (lblHomingStatus ui_loaded)
                (tabPosition_enabled ui_loaded) (dialPosition_enabled ui_loaded)
                (btnPosition_text ui_loaded)
                (tabVelocity_enabled ui_loaded) (dialVelocity_enabled ui_loaded)
                (btnVelocity_text ui_loaded)
                ("Position", "deg")%string
                (- (_PRANGE + 10), _PRANGE + 10)%Z
  | stateIdle =>
      mkWidgets true true true (lblHomingStatus u)
                true false "Enable"
                true false "Enable"
                (plot_label u) (plot_yrange u)
  | stateHoming =>
      mkWidgets false (tabHoming_enabled u) false "Running..."
                false (dialPosition_enabled u) (btnPosition_text u)
                false (dialVelocity_enabled u) (btnVelocity_text u)
                (plot_label u) (plot_yrange u)
  | statePosition =>
      mkWidgets false false (btnHoming_enabled u) (lblHomingStatus u)
                (tabPosition_enabled u) true "Disable"
                false (dialVelocity_enabled u) (btnVelocity_text u)
                ("Position", "deg")%string
                (- (_PRANGE + 10), _PRANGE + 10)%Z
  | stateVelocity =>
      mkWidgets false false (btnHoming_enabled u) (lblHomingStatus u)
                false (dialPosition_enabled u) (btnPosition_text u)
                (tabVelocity_enabled u) true "Disable"
                ("Velocity", "rps")%string
                (- (_VRANGE + 10), _VRANGE + 10)%Z
  end.

(** [ScopeWindow.setState]: the widget writes, then [self._state = state]. *)
Definition setState (state : AxisState) : Py unit :=
  modify (fun w => set_state state (set_ui (state_widgets state (ui w)) w)).

(** Reading [self._poller]. *)
Definition get_poller : Py Poller := fun w =>
  match _poller w with
  | Some p => ret p w
  | None =>
      raise (AttributeError "'ScopeWindow' object has no attribute '_poller'") w
  end.

(** [self._poller.start()]. *)
Definition poller_start : Py unit :=
  p <- get_poller ;;
  il_call PollerStart ;;
  modify (set_poller (Some (mkPoller (poller_reg p) true))).

(** [self._poller.stop()]. *)
Definition poller_stop : Py unit :=
  p <- get_poller ;;
  il_call PollerStop ;;
  modify (set_poller (Some (mkPoller (poller_reg p) false))).

(** [self._timerPlotUpdate.start(ms)]. *)
Definition timer_start (ms : Q) : Py unit :=
  tell (TimerStart ms) ;; modify (set_timer true).

(** [self._timerPlotUpdate.stop()]. *)
Definition timer_stop : Py unit :=
  tell TimerStop ;; modify (set_timer false).

(** [ScopeWindow.enableScope(axis, reg)]. *)
Definition enableScope (reg : Register) : Py unit :=
  il_call (PollerNew reg _POLLER_T_S _POLLER_BUF_SZ) ;;
  modify (set_poller (Some (mkPoller reg false))) ;;
  modify (set_data (np_zeros _N_SAMPLES)) ;;
  modify (set_time (np_arange (inject_Z (- _N_SAMPLES * _POLLER_T_S) / 1000)%Q
                              0%Q
                              (inject_Z _POLLER_T_S / 1000)%Q)) ;;
  timer_start (1000 / inject_Z _FPS)%Q ;;
  poller_start.

(** [ScopeWindow.disableScope]. *)
Definition disableScope : Py unit :=
  poller_stop ;;
  timer_stop.

(** [ScopeWindow.onHomingFinished(result)]. *)
Definition onHomingFinished (result : string) : Py unit :=
  modify (fun w =>
    let u := ui w in
    set_ui (mkWidgets (cboxAxes_enabled u) (tabHoming_enabled u)
                      (btnHoming_enabled u) result
                      (tabPosition_enabled u) (dialPosition_enabled u)
                      (btnPosition_text u)
                      (tabVelocity_enabled u) (dialVelocity_enabled u)
                      (btnVelocity_text u)
                      (plot_label u) (plot_yrange u)) w) ;;
  setState stateIdle.

(** [ScopeWindow.on_btnHoming_clicked]: the state is set, then the thread
    that will execute [HomingRunner.run] is created, wired and started. *)
Definition on_btnHoming_clicked : Py unit :=
  setState stateHoming ;;
  tell ThreadStart.

(** [ScopeWindow.on_btnPosition_clicked]. *)
Definition on_btnPosition_clicked : Py unit :=
  s <- gets (@_state D) ;;
  if AxisState_eqb s stateIdle then
    (il_call (SetMode MODE_PP) ;;
     il_call SetUnitsPos ;;
     il_call Enable ;;
     enableScope POS_ACTUAL ;;
     setState statePosition)
  else
    (disableScope ;;
     il_call Disable ;;
     setState stateIdle).

(** [ScopeWindow.on_dialPosition_valueChanged]. *)
Definition on_dialPosition_valueChanged (value : Z) : Py unit :=
  il_call (SetPosition value).

(** [ScopeWindow.on_btnVelocity_clicked]. *)
Definition on_btnVelocity_clicked : Py unit :=
  s <- gets (@_state D) ;;
  if AxisState_eqb s stateIdle then
    (il_call (SetMode MODE_PV) ;;
     il_call SetUnitsVel ;;
     il_call Enable ;;
     enableScope VEL_ACTUAL ;;
     setState stateVelocity)
  else
    (disableScope ;;
     il_call Disable ;;
     setState stateIdle).

(** [ScopeWindow.on_dialVelocity_valueChanged]. *)
Definition on_dialVelocity_valueChanged (value : Z) : Py unit :=
  il_call (SetVelocity value).

(** [self._data[-samples:] = d]. *)
Definition assign_data_tail (samples : nat) (d : list Q) : Py unit := fun w =>
  match set_tail (_data w) samples d with
  | Some a => modify (set_data a) w
  | None => raise (ValueError "could not broadcast input array") w
  end.

(** [self._time[-samples:] = t]. *)
Definition assign_time_tail (samples : nat) (t : list Q) : Py unit := fun w =>
  match set_tail (_time w) samples t with
  | Some a => modify (set_time a) w
  | None => raise (ValueError "could not broadcast input array") w
  end.

(** [ScopeWindow.on_timerPlotUpdate_expired]; [(t, d)] is the value read from
    [self._poller.data] at this tick. *)
Definition on_timerPlotUpdate_expired (t d : list Q) : Py unit :=
  _ <- get_poller ;;
  let samples := length d in
  if samples =? 0 then ret tt
  else
    (modify (fun w => set_data (np_roll_left (_data w) samples) w) ;;
     assign_data_tail samples d ;;
     modify (fun w => set_time (np_roll_left (_time w) samples) w) ;;
     assign_time_tail samples t ;;
     modify (fun w => set_curve (_time w, _data w) w)).

(** [ScopeWindow.__init__] on the drive [d]: [setState(stateInit)],
    [setState(stateIdle)], an inactive timer.  (The axis discovery of
    [loadAxes] is taken as having selected the axis whose drive is [d].) *)
Definition ScopeWindow_init (d : D) : World D :=
  world ((setState stateInit ;; setState stateIdle)
           (mkWorld d stateInit ui_loaded None false [] [] ([], []))).

(** *** The event loop of the window's thread *)

(** The slots of the window, with their arguments. *)
Inductive Slot :=
| BtnHoming
| BtnPosition
| BtnVelocity
| HomingFinished (result : string)
| DialPosition (value : Z)
| DialVelocity (value : Z)
| TimerExpired (t d : list Q).

Definition handle (s : Slot) : Py unit :=
  match s with
  | BtnHoming => on_btnHoming_clicked
  | BtnPosition => on_btnPosition_clicked
  | BtnVelocity => on_btnVelocity_clicked
  | HomingFinished r => onHomingFinished r
  | DialPosition v => on_dialPosition_valueChanged v
  | DialVelocity v => on_dialVelocity_valueChanged v
  | TimerExpired t d => on_timerPlotUpdate_expired t d
  end.

(** Slots run one after the other, each to completion, until one raises. *)
Fixpoint run_slots (l : list Slot) : Py unit :=
  match l with
  | [] => ret tt
  | s :: l' => handle s ;; run_slots l'
  end.

(** The messages emitted on [finished] in a log, in order. *)
Definition emitted (l : list Event) : list string :=
  flat_map (fun e => match e with Emit m => [m] | _ => [] end) l.

(** How many times [axis.disable()] was called in a log. *)
Definition disable_calls (l : list Event) : nat :=
  length (filter (fun e => match e with Call Disable => true | _ => false end) l).

(** Does the log call [op]? *)
Definition calls (op_is : DevOp -> bool) (l : list Event) : bool :=
  existsb (fun e => match e with Call op => op_is op | _ => false end) l.

(** One homing run as the window sees it: the click, the worker's [run] in
    its thread, then every emission of [finished] delivered, in order, to
    [onHomingFinished] (the signal is connected to that slot).  An exception
    leaving [run] stays in the worker's thread. *)
Definition homing_run : Py unit :=
  on_btnHoming_clicked ;;
  (fun w =>
     match HomingRunner_run _HOMING_TIMEOUT w with
     | mkOut _ l w1 =>
         match run_slots (map HomingFinished (emitted l)) w1 with
         | mkOut r l' w2 => mkOut r (l ++ l') w2
         end
     end).

(** Walking a log from a poller and a timer that are running or not: is the
    timer never active while the poller is not running? *)
Fixpoint pump_inside_poller (running timer : bool) (l : list Event) : bool :=
  match l with
  | [] => true
  | e :: l' =>
      let running' := match e with
                      | Call PollerStart => true
                      | Call PollerStop => false
                      | _ => running
                      end in
      let timer' := match e with
                    | TimerStart _ => true
                    | TimerStop => false
                    | _ => timer
                    end in
      implb timer' running' && pump_inside_poller running' timer' l'
  end.

(** At a slot boundary: an active timer has a running poller. *)
Definition scope_consistent (w : World D) : Prop :=
  timer_active w = true ->
  exists p, _poller w = Some p /\ poller_running p = true.

(** In [statePosition] and [stateVelocity] a poller has been created. *)
Definition scope_created (w : World D) : Prop :=
  _state w = statePosition \/ _state w = stateVelocity ->
  exists p, _poller w = Some p.

End Program.

Arguments Slot : clear implicits.

(** ** The transition table of the specification *)

(** The four commands of the Supervisor. *)
Inductive Command :=
| requestHoming
| togglePositionControl
| toggleVelocityControl
| onHomingComplete (outcome : string).

(** The slot that implements each command. *)
Definition slot_of (c : Command) : Slot :=
  match c with
  | requestHoming => BtnHoming
  | togglePositionControl => BtnPosition
  | toggleVelocityControl => BtnVelocity
  | onHomingComplete r => HomingFinished r
  end.

(** The table as the specification writes it (state x command -> next
    state); [None] where the table has a dash. *)
Definition spec_table (s : AxisState) (c : Command) : option AxisState :=
  match s, c with
  | stateIdle, requestHoming => Some stateHoming
  | stateIdle, togglePositionControl => Some statePosition
  | stateIdle, toggleVelocityControl => Some stateVelocity
  | stateHoming, onHomingComplete _ => Some stateIdle
  | statePosition, togglePositionControl => Some stateIdle
  | stateVelocity, toggleVelocityControl => Some stateIdle
  | _, _ => None
  end.

(** One step of the specification: a pair without entry leaves the state. *)
Definition spec_next (s : AxisState) (c : Command) : AxisState :=
  match spec_table s c with
  | Some s' => s'
  | None => s
  end.

(** The fold of the table over a command sequence, from [s]. *)
Definition spec_fold_from (s : AxisState) (cs : list Command) : AxisState :=
  fold_left spec_next cs s.

Definition spec_fold (cs : list Command) : AxisState :=
  spec_fold_from stateIdle cs.

(** Every command of the sequence meets an entry of the table. *)
Fixpoint spec_legal (s : AxisState) (cs : list Command) : bool :=
  match cs with
  | [] => true
  | c :: cs' =>
      match spec_table s c with
      | Some s' => spec_legal s' cs'
      | None => false
      end
  end.

(** Can the user issue the command through the widgets?  A button inside a
    disabled tab cannot be clicked. *)
Definition clickable (u : Widgets) (c : Command) : bool :=
  match c with
  | requestHoming => tabHoming_enabled u && btnHoming_enabled u
  | togglePositionControl => tabPosition_enabled u
  | toggleVelocityControl => tabVelocity_enabled u
  | onHomingComplete _ => false
  end.

(** ** Environments *)

(** The state of the drive after a list of calls. *)
Definition after {D : Type} {Dev : Device D} (ops : list DevOp) (d : D) : D :=
  fold_left (fun d' op => snd (dev_call op d')) ops d.

(** From the state [d] on, no call ever raises. *)
Definition never_raises {D : Type} {Dev : Device D} (d : D) : Prop :=
  forall (ops : list DevOp) (op : DevOp),
    fst (dev_call op (after ops d)) = None.

(** A drive that answers every call by a fixed script. *)
Definition Script : Type := DevOp -> option string.

#[export] Instance scripted : Device Script := fun op f => (f op, f).

(** Every call returns. *)
Definition reliable : Script := fun _ => None.

(** [axis.enable()] raises. *)
Definition enable_fails : Script := fun op =>
  match op with
  | Enable => Some "drive fault"%string
  | _ => None
  end.

(** [axis.mode = ...] raises. *)
Definition mode_fails : Script := fun op =>
  match op with
  | SetMode _ => Some "no answer"%string
  | _ => None
  end.

(** [axis.homing_wait(timeout)] raises. *)
Definition homing_times_out : Script := fun op =>
  match op with
  | HomingWait _ => Some "timeout"%string
  | _ => None
  end.

(** The five samples of the scenario: [(0.01, 1.0) ... (0.05, 5.0)]. *)
Definition five_t : list Q := [1 # 100; 2 # 100; 3 # 100; 4 # 100; 5 # 100]%Q.
Definition five_d : list Q := [1; 2; 3; 4; 5]%Q.

(** ** Further environments and observations *)

Unset Implicit Arguments.

(** Every call raises, except [axis.disable()]. *)
Definition only_disable_works : Script := fun op =>
  match op with
  | Disable => None
  | _ => Some "fault"%string
  end.

(** [axis.disable()] raises. *)
Definition disable_fails : Script := fun op =>
  match op with
  | Disable => Some "not ready"%string
  | _ => None
  end.

(** [poller.start()] raises. *)
Definition poller_start_fails : Script := fun op =>
  match op with
  | PollerStart => Some "no thread"%string
  | _ => None
  end.

(** [il.Poller(...)] raises. *)
Definition poller_new_fails : Script := fun op =>
  match op with
  | PollerNew _ _ _ => Some "no memory"%string
  | _ => None
  end.

(** The library calls of a log, in order. *)
Definition ops_of (l : list Event) : list DevOp :=
  flat_map (fun e => match e with Call op => [op] | _ => [] end) l.

(** Does the log start or stop the timer? *)
Definition touches_timer (l : list Event) : bool :=
  existsb (fun e => match e with
                    | TimerStart _ | TimerStop => true
                    | _ => false
                    end) l.

(** The enabled flags and button texts of the controls. *)
Definition controls (u : Widgets)
  : bool * bool * bool * bool * bool * bool * bool * string * string :=
  (cboxAxes_enabled u, tabHoming_enabled u, btnHoming_enabled u,
   tabPosition_enabled u, dialPosition_enabled u,
   tabVelocity_enabled u, dialVelocity_enabled u,
   btnPosition_text u, btnVelocity_text u).

(** The controls that go with each state: those [setState] leaves when the
    state is entered from [stateIdle]. *)
Definition controls_of (s : AxisState)
  : option (bool * bool * bool * bool * bool * bool * bool * string * string) :=
  match s with
  | stateInit => None
  | stateIdle =>
      Some (true, true, true, true, false, true, false,
            "Enable"%string, "Enable"%string)
  | stateHoming =>
      Some (false, true, false, false, false, false, false,
            "Enable"%string, "Enable"%string)
  | statePosition =>
      Some (false, false, true, true, true, false, false,
            "Disable"%string, "Enable"%string)
  | stateVelocity =>
      Some (false, false, true, false, false, true, true,
            "Enable"%string, "Disable"%string)
  end.

(** The controls are those of the window's state. *)
Definition ui_agrees {D : Type} (w : World D) : Prop :=
  controls_of (_state w) = Some (controls (ui w)).

(** Can the slot be triggered?  A button or a dial inside a disabled tab
    cannot be operated; [onHomingFinished] and the timer are not triggered
    through widgets. *)
Definition slot_enabled (u : Widgets) (s : Slot) : bool :=
  match s with
  | BtnHoming => tabHoming_enabled u && btnHoming_enabled u
  | BtnPosition => tabPosition_enabled u
  | BtnVelocity => tabVelocity_enabled u
  | DialPosition _ => tabPosition_enabled u && dialPosition_enabled u
  | DialVelocity _ => tabVelocity_enabled u && dialVelocity_enabled u
  | HomingFinished _ => true
  | TimerExpired _ _ => true
  end.

(** The scope goes with the state: in [statePosition] and [stateVelocity]
    the timer is active, the poller runs on the register of the state and
    the plot is labelled and scaled for it; in every other state the timer
    is inactive and no poller runs. *)
Definition scope_matches {D : Type} (w : World D) : Prop :=
  match _state w with
  | statePosition =>
      timer_active w = true /\
      _poller w = Some (mkPoller POS_ACTUAL true) /\
      plot_label (ui w) = ("Position", "deg")%string /\
      plot_yrange (ui w) = (-370, 370)%Z
  | stateVelocity =>
      timer_active w = true /\
      _poller w = Some (mkPoller VEL_ACTUAL true) /\
      plot_label (ui w) = ("Velocity", "rps")%string /\
      plot_yrange (ui w) = (-50, 50)%Z
  | _ =>
      timer_active w = false /\
      (forall p, _poller w = Some p -> poller_running p = false)
  end.

(** The last [n] elements of a list (the whole list when it is shorter). *)
Definition lastn {A : Type} (n : nat) (l : list A) : list A :=
  skipn (length l - n) l.

(** Is the list of rationals in non-decreasing order? *)
Fixpoint ascending (l : list Q) : bool :=
  match l with
  | a :: (b :: _) as tl => Qle_bool a b && ascending tl
  | _ => true
  end.

(** The timer slot run on each batch [(t, d)] of a list in turn. *)
Definition ticks (batches : list (list Q * list Q)) : list Slot :=
  map (fun b => TimerExpired (fst b) (snd b)) batches.

(** ** Axis discovery *)

(** The outcome of constructing an object of the library: the object, an
    [IngeniaLinkCreationError], or any other exception. *)
Inductive Creation (A : Type) :=
| Created (a : A)
| CreationError
| OtherError (e : Exn).
Arguments Created {A} a.
Arguments CreationError {A}.
Arguments OtherError {A} e.

(** What discovery finds: [il.devices()], [il.Network(dev)], [net.axes()]
    and [il.Axis(net, axis_id, timeout=...)]. *)
Record Bus (Net Axis : Type) := mkBus {
  il_devices : list string;
  il_Network : string -> Creation Net;
  net_axes : Net -> list BinNums.N;
  il_Axis : Net -> BinNums.N -> Z -> Creation Axis
}.
Arguments mkBus {Net Axis}.
Arguments il_devices {Net Axis}.
Arguments il_Network {Net Axis}.
Arguments net_axes {Net Axis}.
Arguments il_Axis {Net Axis}.

(** A row of the combo box model: the text shown and the axis stored under
    [Qt.UserRole]. *)
Record Item (Axis : Type) := mkItem {
  item_text : string;
  item_axis : Axis
}.
Arguments mkItem {Axis}.
Arguments item_text {Axis}.
Arguments item_axis {Axis}.

(** [format(n, 'x')] for [n >= 0]: lower-case hexadecimal digits. *)
Definition hex (n : BinNums.N) : string :=
  match n with
  | N0 => "0"%string
  | Npos p => HexString.Raw.of_pos p EmptyString
  end.

(** ['{:02x}'.format(n)]: at least two digits, padded with a zero. *)
Definition hex02 (n : BinNums.N) : string :=
  if (n <? 16)%N then String "0"%char (hex n) else hex n.

(** ['0x{:02x} ({})'.format(axis_id, dev)]. *)
Definition axis_label (axis_id : BinNums.N) (dev : string) : string :=
  String.append "0x"
    (String.append (hex02 axis_id)
       (String.append " (" (String.append dev ")"))).

(** The inner loop of [loadAxes] over [found], appending to [model]. *)
Fixpoint loadAxes_axes {Net Axis : Type} (bus : Bus Net Axis) (net : Net)
    (dev : string) (found : list BinNums.N) (model : list (Item Axis))
  : Result (list (Item Axis)) :=
  match found with
  | [] => Ok model
  | axis_id :: found' =>
      match il_Axis bus net axis_id _AXIS_TIMEOUT with
      | CreationError => loadAxes_axes bus net dev found' model
      | OtherError e => Raise e
      | Created axis =>
          loadAxes_axes bus net dev found'
            (model ++ [mkItem (axis_label axis_id dev) axis])
      end
  end.

(** The outer loop of [loadAxes] over [devs]. *)
Fixpoint loadAxes_devs {Net Axis : Type} (bus : Bus Net Axis)
    (devs : list string) (model : list (Item Axis))
  : Result (list (Item Axis)) :=
  match devs with
  | [] => Ok model
  | dev :: devs' =>
      match il_Network bus dev with
      | CreationError => loadAxes_devs bus devs' model
      | OtherError e => Raise e
      | Created net =>
          match loadAxes_axes bus net dev (net_axes bus net) model with
          | Ok model' => loadAxes_devs bus devs' model'
          | Raise e => Raise e
          end
      end
  end.

(** [ScopeWindow.loadAxes]: the model handed to [cboxAxes.setModel]. *)
Definition loadAxes {Net Axis : Type} (bus : Bus Net Axis)
  : Result (list (Item Axis)) :=
  loadAxes_devs bus (il_devices bus) [].

(** The axes of one network that can be constructed, with their labels. *)
Definition axes_created {Net Axis : Type} (bus : Bus Net Axis) (net : Net)
    (dev : string) : list (Item Axis) :=
  flat_map (fun axis_id =>
              match il_Axis bus net axis_id _AXIS_TIMEOUT with
              | Created axis => [mkItem (axis_label axis_id dev) axis]
              | _ => []
              end) (net_axes bus net).

(** The axes of all devices whose network can be constructed. *)
Definition discovered {Net Axis : Type} (bus : Bus Net Axis)
  : list (Item Axis) :=
  flat_map (fun dev =>
              match il_Network bus dev with
              | Created net => axes_created bus net dev
              | _ => []
              end) (il_devices bus).

(** No construction on the bus raises anything but a creation error. *)
Definition only_creation_errors {Net Axis : Type} (bus : Bus Net Axis) : Prop :=
  (forall dev e, il_Network bus dev <> OtherError e) /\
  (forall net axis_id t e, il_Axis bus net axis_id t <> OtherError e).

(** Does the string hold no space? *)
Fixpoint no_space (s : string) : bool :=
  match s with
  | EmptyString => true
  | String c s' => negb (Ascii.eqb c " "%char) && no_space s'
  end.

(** A bus for illustration: ports [ttyACM0] (axes 1, 32 and 255, of which 32
    cannot be constructed), [ttyS0] (no network) and [ttyUSB1] (axis
    4). *)
Definition demo_bus : Bus string (string * BinNums.N) :=
  mkBus ["ttyACM0"; "ttyS0"; "ttyUSB1"]%string
        (fun dev => if String.eqb dev "ttyS0" then CreationError
                    else Created dev)
        (fun net => if String.eqb net "ttyACM0" then [1; 32; 255]%N
                    else [4]%N)
        (fun net axis_id _ => if (axis_id =? 32)%N then CreationError
                              else Created (net, axis_id)).

(** * The build script, ingenialink/ingenialink_build.py *)

(** Exceptions of the build script. *)
Inductive BuildExn :=
| FileNotFoundError (msg : string)
| ImportError (msg : string)
| CalledProcessError (cmd : list string) (status : Z).

Inductive BuildResult (A : Type) :=
| Built (a : A)
| Failed (e : BuildExn).
Arguments Built {A} a.
Arguments Failed {A} e.

(** [os.path.join(a, b)] for a non-empty [a] that does not end with the
    separator and a relative [b], which is how the script uses it; [sep] is
    [os.sep]. *)
Definition join (sep a b : string) : string :=
  String.append a (String.append sep b).

Definition _SRC_DIR : string := "_deps".
Definition _BUILD_DIR : string := "_build".
Definition _INSTALL_DIR : string := "_install".

Definition _INC_DIR (sep : string) : string := join sep _INSTALL_DIR "include".
Definition _LIB_DIR (sep : string) : string := join sep _INSTALL_DIR "lib".

(** One dependency as the module-level [if]/[else] sets it up: where to
    clone it from ([_SER_URL] with [_SER_VER]; [None] when the sources are
    given by the environment), its source and its build directory. *)
Record Dep := mkDep {
  dep_remote : option (string * string);
  dep_src : string;
  dep_build : string
}.

(** [_SER_URL], [_SER_VER], [_SER_SRC], [_SER_BUILD] from [os.environ]. *)
Definition sercomm_dep (sep : string) (environ : string -> option string) : Dep :=
  match environ "SERCOMM_DIR"%string with
  | Some dir => mkDep None dir (join sep _BUILD_DIR "sercomm")
  | None =>
      mkDep (Some ("https://github.com/ingeniamc/sercomm", "1.3.0")%string)
            (join sep _SRC_DIR "sercomm")
            (join sep _BUILD_DIR "sercomm")
  end.

(** [_IL_URL], [_IL_VER], [_IL_SRC], [_IL_BUILD] from [os.environ]. *)
Definition ingenialink_dep (sep : string) (environ : string -> option string) : Dep :=
  match environ "INGENIALINK_DIR"%string with
  | Some dir => mkDep None dir (join sep _BUILD_DIR "ingenialink")
  | None =>
      mkDep (Some ("https://github.com/ingeniamc/ingenialink", "2.1.0")%string)
            (join sep _SRC_DIR "ingenialink")
            (join sep _BUILD_DIR "ingenialink")
  end.

(** [sys.version_info >= (a, b)]: tuples compare lexicographically, and a
    longer tuple with an equal prefix is the greater; only major and minor
    decide. *)
Definition version_ge (version_info : Z * Z) (a b : Z) : bool :=
  (a <? fst version_info)%Z
  || ((fst version_info =? a)%Z && (b <=? snd version_info)%Z).

(** The module-level choice of [_CMAKE_GENERATOR] from [sys.platform],
    [sys.version_info] and [sys.maxsize]. *)
Definition _CMAKE_GENERATOR (platform : string) (version_info : Z * Z)
    (maxsize : Z) : BuildResult string :=
  if String.eqb platform "win32" then
    match (if version_ge version_info 3 5 then Some "Visual Studio 14 2015"
           else if version_ge version_info 3 3 then Some "Visual Studio 10 2010"
           else if version_ge version_info 2 7 then Some "Visual Studio 9 2008"
           else None)%string with
    | None => Failed (ImportError "Unsupported Python version")
    | Some generator =>
        if (2 ^ 32 <? maxsize)%Z
        then Built (String.append generator " Win64")
        else Built generator
    end
  else Built "Unix Makefiles"%string.

(** [_get_libs()] for [sys.platform]. *)
Definition _get_libs (platform : string) : list string :=
  let libs := ["ingenialink"; "sercomm"]%string in
  if String.prefix "linux" platform then
    libs ++ ["udev"; "rt"; "pthread"]%string
  else if String.eqb platform "darwin" then
    libs ++ ["pthread"]%string
  else if String.eqb platform "win32" then
    libs ++ ["user32"; "setupapi"; "advapi32"]%string
  else libs.

(** [_get_link_args()] for [sys.platform]. *)
Definition _get_link_args (platform : string) : list string :=
  if String.eqb platform "darwin" then
    ["-framework"; "IOKit"; "-framework"; "Foundation"]%string
  else [].

(** The machine the script runs on: [find_executable(name)],
    [os.path.exists(path)], and [check_call(cmd)], which returns ([None]) or
    raises [CalledProcessError] with the exit status ([Some status]) and may
    change the machine. *)
Class BuildHost (H : Type) := mkBuildHost {
  find_executable : string -> H -> option string;
  path_exists : string -> H -> bool;
  check_call : list string -> H -> option Z * H
}.

Section BuildScript.

Context {H : Type} {Host : BuildHost H}.

(** What a part of the script leaves: its outcome, the commands it ran, in
    order, and the machine. *)
Record BuildOut := mkBuildOut {
  bres : BuildResult unit;
  cmds : list (list string);
  host : H
}.

(** One [check_call(cmd)]. *)
Definition run_cmd (cmd : list string) (h : H) : BuildOut :=
  match check_call cmd h with
  | (None, h') => mkBuildOut (Built tt) [cmd] h'
  | (Some status, h') =>
      mkBuildOut (Failed (CalledProcessError cmd status)) [cmd] h'
  end.

(** Two statements in sequence. *)
Definition and_then (a b : H -> BuildOut) (h : H) : BuildOut :=
  match a h with
  | mkBuildOut (Built _) l h1 =>
      match b h1 with
      | mkBuildOut r l' h2 => mkBuildOut r (l ++ l') h2
      end
  | mkBuildOut (Failed e) l h1 => mkBuildOut (Failed e) l h1
  end.

(** The command of [check_call([git, 'clone', '-b', ver, url, src])]. *)
Definition clone_cmd (git ver url src : string) : list string :=
  [git; "clone"; "-b"; ver; url; src]%string.

(** [if not exists(src) and url: check_call([git, 'clone', ...])]. *)
Definition clone_if_missing (git : string) (dep : Dep) (h : H) : BuildOut :=
  if negb (path_exists (dep_src dep) h) then
    match dep_remote dep with
    | Some (url, ver) => run_cmd (clone_cmd git ver url (dep_src dep)) h
    | None => mkBuildOut (Built tt) [] h
    end
  else mkBuildOut (Built tt) [] h.

(** The command of the configuring [check_call]. *)
Definition configure_cmd (cmake generator : string) (dep : Dep) : list string :=
  [cmake; String.append "-H" (dep_src dep);
   String.append "-B" (dep_build dep);
   "-G"; generator;
   "-DCMAKE_BUILD_TYPE=Release";
   String.append "-DCMAKE_INSTALL_PREFIX=" _INSTALL_DIR;
   "-DBUILD_SHARED_LIBS=OFF"; "-DWITH_PIC=ON"]%string.

(** The command of the building and installing [check_call]. *)
Definition install_cmd (cmake : string) (dep : Dep) : list string :=
  [cmake; "--build"; dep_build dep; "--config"; "Release";
   "--target"; "install"]%string.

(** [if not x] for the value of [find_executable]. *)
Definition not_found (x : option string) : bool :=
  match x with
  | None => true
  | Some path => String.eqb path ""
  end.

(** [_build_deps()], with the generator and the two dependencies the module
    has set up. *)
Definition _build_deps (generator : string) (ser il : Dep) (h : H) : BuildOut :=
  let git := find_executable "git" h in
  if not_found git then
    mkBuildOut (Failed (FileNotFoundError "Git is not installed or in PATH"))
               [] h
  else
    let cmake := find_executable "cmake" h in
    if not_found cmake then
      mkBuildOut (Failed (FileNotFoundError "CMake is not installed or in PATH"))
                 [] h
    else
      let git := match git with Some g => g | None => EmptyString end in
      let cmake := match cmake with Some c => c | None => EmptyString end in
      and_then (clone_if_missing git ser)
        (and_then (run_cmd (configure_cmd cmake generator ser))
           (and_then (run_cmd (install_cmd cmake ser))
              (and_then (clone_if_missing git il)
                 (and_then (run_cmd (configure_cmd cmake generator il))
                    (run_cmd (install_cmd cmake il)))))) h.

End BuildScript.

Arguments BuildOut H : clear implicits.

(** A machine for illustration: the paths that exist, the tools that are
    installed and the commands that fail; a clone creates its target. *)
Record Machine := mkMachine {
  present : list string;
  tools : list string;
  broken : list (list string)
}.

Definition has (x : string) (l : list string) : bool :=
  existsb (String.eqb x) l.

#[export] Instance machine_host : BuildHost Machine := {|
  find_executable := fun name m =>
    if has name (tools m)
    then Some (String.append "/usr/bin/" name) else None;
  path_exists := fun path m => has path (present m);
  check_call := fun cmd m =>
    if existsb (fun c => if list_eq_dec string_dec c cmd then true else false)
               (broken m)
    then (Some 2%Z, m)
    else match cmd with
         | [_; "clone"; _; _; _; src]%string =>
             (None, mkMachine (src :: present m) (tools m) (broken m))
         | _ => (None, m)
         end
|}.

(** A window whose buffer holds two samples, for illustration. *)
Definition small_world : World Script :=
  mkWorld reliable statePosition ui_loaded (Some (mkPoller POS_ACTUAL true))
          true [1; 2]%Q [(-2) # 100; (-1) # 100]%Q ([], []).

(** Three drained batches: five samples, none, two more. *)
Definition demo_batches : list (list Q * list Q) :=
  [(five_t, five_d); ([], []); ([6 # 100; 7 # 100]%Q, [6; 7]%Q)].

(** An environment that gives both source trees. *)
Definition given_environ (name : string) : option string :=
  if String.eqb name "SERCOMM_DIR" then Some "/src/sercomm"%string
  else if String.eqb name "INGENIALINK_DIR" then Some "/src/ingenialink"%string
  else None.

(** A machine with both tools and nothing else. *)
Definition bare_machine : Machine :=
  mkMachine [] ["git"; "cmake"]%string [].

(** A machine without [git], holding both source trees. *)
Definition gitless_machine : Machine :=
  mkMachine ["/src/sercomm"; "/src/ingenialink"]%string ["cmake"]%string [].

(** ** Sessions *)

(** Is the drive enabled after the calls of a log, when it was ([b = true])
    or was not enabled before? *)
Definition drive_enabled (l : list Event) (b : bool) : bool :=
  fold_left (fun b e => match e with
                        | Call Enable => true
                        | Call Disable => false
                        | _ => b
                        end) l b.

(** The states in which the axis is under control. *)
Definition in_motion (s : AxisState) : bool :=
  match s with
  | statePosition | stateVelocity => true
  | _ => false
  end.


(** Replaying calls on the drive, one after the other: the message of the
    first that raises, if one does. *)
Fixpoint first_raise {D : Type} {Dev : Device D} (ops : list DevOp) (d : D)
  : option string :=
  match ops with
  | [] => None
  | op :: ops' =>
      match dev_call op d with
      | (Some msg, _) => Some msg
      | (None, d') => first_raise ops' d'
      end
  end.

(** A session in which [poller.start()] has raised: the position toggle,
    then the homing button. *)
Definition after_failed_start : World Script :=
  world (handle BtnHoming
           (world (handle BtnPosition (ScopeWindow_init poller_start_fails)))).

(** Slots for illustration: position control with a tick, left again, then
    the homing button. *)
Definition demo_slots : list Slot :=
  [BtnPosition; TimerExpired five_t five_d; BtnPosition; BtnHoming].

(** Can the slot be triggered through the widgets while no homing run is
    started?  The homing button is left alone, and homing outcomes arrive
    only inside a homing run. *)
Definition motion_slot_enabled (u : Widgets) (s : Slot) : bool :=
  match s with
  | BtnHoming => false
  | HomingFinished _ => false
  | _ => slot_enabled u s
  end.

(** Every slot of the list is enabled when its turn comes. *)
Fixpoint operated_slots {D : Type} {Dev : Device D} (l : list Slot)
    (w : World D) : Prop :=
  match l with
  | [] => True
  | s :: l' =>
      motion_slot_enabled (ui w) s = true /\
      operated_slots l' (world (handle s w))
  end.

(** Slots for illustration: position control with a tick and a new target,
    left again, then velocity control left on. *)
Definition demo_motion : list Slot :=
  [BtnPosition; TimerExpired five_t five_d; DialPosition 90; BtnPosition;
   BtnVelocity].

Section BuildPlan.

Context {H : Type} {Host : BuildHost H}.



End BuildPlan.

(** * Properties *)

Unset Implicit Arguments.

(** ** Proof steps shared by the development *)

(** Unfold the monad and the statements built from it. *)
Ltac unfold_py :=
  unfold homing_run, HomingRunner_run, homing_setup, homing_wait_step,
    finished_emit, on_btnHoming_clicked, on_btnPosition_clicked,
    on_btnVelocity_clicked, on_dialPosition_valueChanged,
    on_dialVelocity_valueChanged, onHomingFinished, enableScope, disableScope,
    poller_start, poller_stop, get_poller, timer_start, timer_stop, setState,
    try_except, try_finally, bind, il_call, tell, modify, gets, ret, raise.

(** Split on the outcome of the next library call. *)
Ltac next_call :=
  match goal with
  | |- context [dev_call ?op ?d] =>
      let m := fresh "msg" in
      let d' := fresh "d" in
      let E := fresh "Ecall" in
      destruct (dev_call op d) as [[m|] d'] eqn:E; cbn [fst snd] in *
  end.

(** Take the next library call made on a known state of the drive: reuse
    its outcome when it is known, split on it otherwise. *)
Ltac step_call :=
  first
    [ match goal with
      | H : dev_call ?op ?d = _ |- context [dev_call ?op ?d] =>
          rewrite H; cbn [fst snd]
      end
    | match goal with
      | |- context [dev_call ?op ?d] =>
          is_var d;
          let m := fresh "msg" in
          let d' := fresh "d" in
          let E := fresh "Ecall" in
          destruct (dev_call op d) as [[m|] d'] eqn:E; cbn [fst snd] in *
      end ].

Section MonadFacts.

Context {D : Type} {Dev : Device D}.

(** Sequencing after a statement that completes. *)
Lemma bind_ok {A B : Type} (k : A -> M D B) (m : M D A) (w : World D) (a : A) :
  res (m w) = Ok a ->
  bind m k w =
  mkOut (res (k a (world (m w))))
        (log (m w) ++ log (k a (world (m w))))
        (world (k a (world (m w)))).
Proof.
  unfold bind. destruct (m w) as [r l w1]. cbn [res log world].
  intros ->. destruct (k a w1). reflexivity.
Qed.

(** Sequencing after a statement that raises. *)
Lemma bind_raise {A B : Type} (k : A -> M D B) (m : M D A) (w : World D) (e : Exn) :
  res (m w) = Raise e ->
  bind m k w = mkOut (Raise e) (log (m w)) (world (m w)).
Proof.
  unfold bind. destruct (m w) as [r l w1]. cbn [res log world].
  intros ->. reflexivity.
Qed.

End MonadFacts.

Section HomingFacts.

Context {D : Type} {Dev : Device D}.

(** [onHomingFinished] always completes, shows its argument and ends in
    [stateIdle]. *)
Lemma onHomingFinished_effect (r : string) (w : World D) :
  res (onHomingFinished r w) = Ok tt /\
  log (onHomingFinished r w) = [] /\
  _state (world (onHomingFinished r w)) = stateIdle /\
  lblHomingStatus (ui (world (onHomingFinished r w))) = r /\
  dev (world (onHomingFinished r w)) = dev w.
Proof. repeat split. Qed.

(** Delivering a non-empty list of outcomes ends in [stateIdle], without any
    event. *)
Lemma deliver_effect (msgs : list string) (w : World D) :
  let o := run_slots (map HomingFinished msgs) w in
  res o = Ok tt /\ log o = [] /\
  (msgs <> [] -> _state (world o) = stateIdle).
Proof.
  revert w. induction msgs as [|m msgs IH]; intros w.
  - cbn. repeat split. intros H. now elim H.
  - cbn [map run_slots handle].
    rewrite (bind_ok _ (onHomingFinished m) w tt eq_refl).
    destruct (IH (world (onHomingFinished m w))) as (Hr & Hl & Hs).
    cbn [res log world]. repeat split.
    + exact Hr.
    + rewrite Hl. reflexivity.
    + intros _. destruct msgs as [|m' msgs].
      * reflexivity.
      * apply Hs. discriminate.
Qed.

(** The worker emits once when the setup step completes, twice when it
    raises. *)
Lemma run_emitted_length (t : Z) (w : World D) :
  length (emitted (log (HomingRunner_run t w))) =
  match res (homing_setup w) with Ok _ => 1 | Raise _ => 2 end.
Proof.
  unfold_py. cbn.
  repeat (next_call; cbn); reflexivity.
Qed.

(** The worker calls [axis.disable()] exactly once on every path. *)
Lemma run_disable_once (t : Z) (w : World D) :
  disable_calls (log (HomingRunner_run t w)) = 1.
Proof.
  unfold_py. cbn.
  repeat (next_call; cbn); reflexivity.
Qed.

(** The worker calls [homing_start] on every path. *)
Lemma run_calls_homing_start (t : Z) (w : World D) :
  calls (fun op => match op with HomingStart => true | _ => false end)
        (log (HomingRunner_run t w)) = true.
Proof.
  unfold_py. cbn.
  repeat (next_call; cbn); reflexivity.
Qed.

End HomingFacts.

Section RunFacts.

Context {D : Type} {Dev : Device D}.

Lemma disable_calls_app (l1 l2 : list Event) :
  disable_calls (l1 ++ l2) = disable_calls l1 + disable_calls l2.
Proof. unfold disable_calls. now rewrite filter_app, length_app. Qed.

(** A whole homing run: it completes, the window ends in [stateIdle], and the
    log is the click's followed by the worker's. *)
Lemma homing_run_effect (w : World D) :
  let w1 := world (on_btnHoming_clicked w) in
  res (homing_run w) = Ok tt /\
  _state (world (homing_run w)) = stateIdle /\
  log (homing_run w) = ThreadStart :: log (HomingRunner_run _HOMING_TIMEOUT w1).
Proof.
  intros w1. unfold homing_run.
  rewrite (bind_ok _ on_btnHoming_clicked w tt eq_refl).
  fold w1. cbn [res log world].
  pose proof (run_emitted_length _HOMING_TIMEOUT w1) as Hlen.
  destruct (HomingRunner_run _HOMING_TIMEOUT w1) as [r l w2].
  cbn [log] in Hlen |- *.
  destruct (deliver_effect (emitted l) w2) as (Hr & Hl & Hs).
  destruct (run_slots (map HomingFinished (emitted l)) w2) as [r' l' w3].
  cbn [res log world] in *. subst r' l'.
  repeat split.
  - apply Hs. intros Hnil. rewrite Hnil in Hlen.
    destruct (res (homing_setup w1)); discriminate.
  - rewrite app_nil_r. reflexivity.
Qed.

End RunFacts.

(** ** Homing *)

(** C1 (the code departs from the claim).  The number of outcomes the worker
    emits in one run is one when the setup step completes and two when it
    raises: after the first [except] has emitted, [run] goes on into the
    second [try], which emits again.  With a drive whose [enable()] raises,
    [finished] is emitted twice, so [onHomingFinished] is delivered two
    outcomes.  Every delivery does end in [stateIdle]. *)
Theorem homing_outcomes_per_run :
  (forall (D : Type) (Dev : Device D) (t : Z) (w : World D),
      length (emitted (log (HomingRunner_run t w))) =
      match res (homing_setup w) with Ok _ => 1 | Raise _ => 2 end) /\
  emitted (log (HomingRunner_run _HOMING_TIMEOUT (ScopeWindow_init enable_fails)))
  = ["Error: drive fault"; "Finished"]%string /\
  (forall (D : Type) (Dev : Device D) (r : string) (w : World D),
      res (onHomingFinished r w) = Ok tt /\
      _state (world (onHomingFinished r w)) = stateIdle).
Proof.
  split; [|split].
  - intros D Dev t w. apply run_emitted_length.
  - vm_compute. reflexivity.
  - intros D Dev r w. split; reflexivity.
Qed.

(** C3 (the code departs from the claim).  When the setup step raises, the
    worker reports the failure and then still calls [homing_start] and
    [homing_wait]: with a drive whose mode setter raises, the log of [run] is
    the failed setter, the error report, both homing calls, a second report
    and the final [disable].  On every drive and every path [homing_start]
    is called. *)
Theorem setup_failure_still_starts_homing :
  log (HomingRunner_run _HOMING_TIMEOUT (ScopeWindow_init mode_fails))
  = [Call (SetMode MODE_HOMING); Emit "Error: no answer";
     Call HomingStart; Call (HomingWait _HOMING_TIMEOUT);
     Emit "Finished"; Call Disable] /\
  (forall (D : Type) (Dev : Device D) (t : Z) (w : World D),
      calls (fun op => match op with HomingStart => true | _ => false end)
            (log (HomingRunner_run t w)) = true).
Proof.
  split.
  - vm_compute. reflexivity.
  - intros D Dev t w. apply run_calls_homing_start.
Qed.

(** C5.  In a homing run whose worker reports a failure (a message
    ["Error: ..."] is emitted), the run completes with the window in
    [stateIdle] and [axis.disable()] has been called exactly once over the
    whole run, the worker's [finally] and the window's [onHomingFinished]
    taken together. *)
Theorem failed_homing_disables_once
    (D : Type) (Dev : Device D) (w : World D) :
  (exists m : string,
      In (String.append "Error: " m) (emitted (log (homing_run w)))) ->
  res (homing_run w) = Ok tt /\
  _state (world (homing_run w)) = stateIdle /\
  disable_calls (log (homing_run w)) = 1.
Proof.
  intros _.
  destruct (homing_run_effect w) as (Hr & Hs & Hl).
  repeat split; try assumption.
  rewrite Hl.
  change (ThreadStart :: ?l) with ([ThreadStart] ++ l).
  rewrite disable_calls_app. cbn.
  apply run_disable_once.
Qed.

(** The run of C5 on a drive whose [homing_wait] times out. *)
Lemma failed_homing_disables_once_witness :
  let w := ScopeWindow_init homing_times_out in
  emitted (log (homing_run w)) = ["Error: timeout"%string] /\
  res (homing_run w) = Ok tt /\
  _state (world (homing_run w)) = stateIdle /\
  disable_calls (log (homing_run w)) = 1.
Proof.
  intros w. split.
  - vm_compute. reflexivity.
  - apply (failed_homing_disables_once Script scripted w).
    exists "timeout"%string. vm_compute. left. reflexivity.
Defined.

(** ** The state machine *)

Section StateMachineFacts.

Context {D : Type} {Dev : Device D}.

(** A drive that never raises returns from the next call and never raises
    afterwards. *)
Lemma never_raises_step (op : DevOp) (d : D) :
  never_raises d ->
  fst (dev_call op d) = None /\ never_raises (snd (dev_call op d)).
Proof.
  intros H. split.
  - apply (H []).
  - intros ops op'. apply (H (op :: ops)).
Qed.

End StateMachineFacts.

(** Take the next library call of the goal on a drive that never raises. *)
Ltac quiet_call H :=
  match goal with
  | |- context [dev_call ?op ?d] =>
      let H1 := fresh "Hret" in
      let H2 := fresh "Hquiet" in
      let m := fresh "msg" in
      let d' := fresh "d" in
      destruct (never_raises_step op d H) as [H1 H2];
      destruct (dev_call op d) as [[m|] d']; cbn [fst snd] in H1, H2 |- *;
      [discriminate H1|]; clear H H1; rename H2 into H
  end.

Section StateMachine.

Context {D : Type} {Dev : Device D}.

(** A command that the table allows completes on a quiet drive and moves the
    window to the state of the table. *)
Lemma handle_legal (w : World D) (c : Command) (s' : AxisState) :
  never_raises (dev w) -> scope_created w ->
  spec_table (_state w) c = Some s' ->
  let o := handle (slot_of c) w in
  res o = Ok tt /\ _state (world o) = s' /\
  scope_created (world o) /\ never_raises (dev (world o)).
Proof.
  intros Hq Hsc Ht.
  destruct w as [d st u p ta da ti cu]. unfold scope_created in *.
  cbn [dev _state _poller] in *.
  destruct c, st; cbn in Ht; try discriminate Ht;
    injection Ht as <-; cbn [slot_of handle].
  - (* requestHoming in stateIdle *)
    cbn. repeat split; try assumption. intros [H|H]; discriminate H.
  - (* togglePositionControl in stateIdle *)
    unfold_py. cbn. repeat (quiet_call Hq; cbn).
    repeat split; try assumption. intros _. eexists. reflexivity.
  - (* togglePositionControl in statePosition *)
    destruct Hsc as [p' ->]; [now left|].
    unfold_py. cbn. repeat (quiet_call Hq; cbn).
    repeat split; try assumption. intros [H|H]; discriminate H.
  - (* toggleVelocityControl in stateIdle *)
    unfold_py. cbn. repeat (quiet_call Hq; cbn).
    repeat split; try assumption. intros _. eexists. reflexivity.
  - (* toggleVelocityControl in stateVelocity *)
    destruct Hsc as [p' ->]; [now right|].
    unfold_py. cbn. repeat (quiet_call Hq; cbn).
    repeat split; try assumption. intros [H|H]; discriminate H.
  - (* onHomingComplete in stateHoming *)
    cbn. repeat split; try assumption. intros [H|H]; discriminate H.
Qed.

(** A sequence of allowed commands follows the fold of the table. *)
Lemma run_legal (cs : list Command) (w : World D) :
  never_raises (dev w) -> scope_created w ->
  spec_legal (_state w) cs = true ->
  let o := run_slots (map slot_of cs) w in
  res o = Ok tt /\ _state (world o) = spec_fold_from (_state w) cs.
Proof.
  revert w. induction cs as [|c cs IH]; intros w Hq Hsc Hl.
  - cbn. split; reflexivity.
  - cbn [spec_legal] in Hl.
    destruct (spec_table (_state w) c) as [s'|] eqn:Ht; [|discriminate Hl].
    destruct (handle_legal w c s' Hq Hsc Ht) as (Hr & Hs & Hsc' & Hq').
    cbn [map run_slots].
    rewrite (bind_ok _ _ w tt Hr). cbn [res log world].
    rewrite <- Hs in Hl.
    destruct (IH _ Hq' Hsc' Hl) as (Hr' & Hs').
    split; [exact Hr'|].
    rewrite Hs', Hs. unfold spec_fold_from. cbn [fold_left].
    replace (spec_next (_state w) c) with s'; [reflexivity|].
    unfold spec_next. rewrite Ht. reflexivity.
Qed.

(** A prefix of an allowed sequence is allowed. *)
Lemma spec_legal_firstn (k : nat) (cs : list Command) (s : AxisState) :
  spec_legal s cs = true -> spec_legal s (firstn k cs) = true.
Proof.
  revert s cs. induction k as [|k IH]; intros s [|c cs] H; cbn in *; trivial.
  destruct (spec_table s c); [apply IH; exact H | discriminate H].
Qed.

(** Outside [stateIdle] the toggles run their [else] branch. *)
Lemma toggle_position_else (w : World D) :
  _state w <> stateIdle ->
  on_btnPosition_clicked w
  = (disableScope ;; il_call Disable ;; setState stateIdle) w.
Proof.
  intros H. unfold on_btnPosition_clicked.
  rewrite (bind_ok _ (gets (@_state D)) w (_state w) eq_refl).
  cbn [res log world gets].
  destruct (_state w); cbn [AxisState_eqb]; try now elim H.
  all: destruct (bind _ _ w); reflexivity.
Qed.

Lemma toggle_velocity_else (w : World D) :
  _state w <> stateIdle ->
  on_btnVelocity_clicked w
  = (disableScope ;; il_call Disable ;; setState stateIdle) w.
Proof.
  intros H. unfold on_btnVelocity_clicked.
  rewrite (bind_ok _ (gets (@_state D)) w (_state w) eq_refl).
  cbn [res log world gets].
  destruct (_state w); cbn [AxisState_eqb]; try now elim H.
  all: destruct (bind _ _ w); reflexivity.
Qed.

(** The [else] branch when a poller exists and neither [poller.stop()] nor
    [axis.disable()] raises. *)
Lemma else_branch_effect (w : World D) (p : Poller) :
  _poller w = Some p ->
  fst (dev_call PollerStop (dev w)) = None ->
  fst (dev_call Disable (snd (dev_call PollerStop (dev w)))) = None ->
  let o := (disableScope ;; il_call Disable ;; setState stateIdle) w in
  res o = Ok tt /\
  log o = [Call PollerStop; TimerStop; Call Disable] /\
  _state (world o) = stateIdle /\
  timer_active (world o) = false /\
  _poller (world o) = Some (mkPoller (poller_reg p) false).
Proof.
  intros Hp H1 H2. destruct w as [d st u p0 ta da ti cu].
  cbn [dev _poller] in *. subst p0.
  unfold_py. cbn.
  destruct (dev_call PollerStop d) as [[m|] d1]; cbn [fst snd] in *;
    [discriminate H1|].
  cbn.
  destruct (dev_call Disable d1) as [[m|] d2]; cbn [fst snd] in *;
    [discriminate H2|].
  cbn. repeat split.
Qed.

(** An exception leaving a toggle leaves the state and the widgets as they
    were. *)
Lemma toggle_position_raise (w : World D) (e : Exn) :
  res (on_btnPosition_clicked w) = Raise e ->
  _state (world (on_btnPosition_clicked w)) = _state w /\
  ui (world (on_btnPosition_clicked w)) = ui w.
Proof.
  destruct w as [d st u p ta da ti cu].
  unfold_py. cbn. destruct st; cbn.
  2: repeat (next_call; cbn); intros H; try discriminate H; split; reflexivity.
  all: destruct p as [p|]; cbn;
    repeat (next_call; cbn); intros H; try discriminate H; split; reflexivity.
Qed.

Lemma toggle_velocity_raise (w : World D) (e : Exn) :
  res (on_btnVelocity_clicked w) = Raise e ->
  _state (world (on_btnVelocity_clicked w)) = _state w /\
  ui (world (on_btnVelocity_clicked w)) = ui w.
Proof.
  destruct w as [d st u p ta da ti cu].
  unfold_py. cbn. destruct st; cbn.
  2: repeat (next_call; cbn); intros H; try discriminate H; split; reflexivity.
  all: destruct p as [p|]; cbn;
    repeat (next_call; cbn); intros H; try discriminate H; split; reflexivity.
Qed.

End StateMachine.

(** The fixed script [reliable] never raises. *)
Lemma reliable_never_raises : never_raises reliable.
Proof.
  intros ops op.
  assert (H : after ops reliable = reliable).
  { induction ops as [|o ops IH]; [reflexivity|]. exact IH. }
  rewrite H. reflexivity.
Qed.

(** Between the states, the widgets that [setState] enables are those of the
    commands the table allows: entering a state from [stateIdle] (or
    [stateIdle] itself) leaves clickable exactly the user commands that have
    an entry. *)
Lemma widgets_allow_table_commands (s : AxisState) (u : Widgets) (c : Command) :
  s <> stateInit ->
  (forall r, c <> onHomingComplete r) ->
  clickable (state_widgets s (state_widgets stateIdle u)) c
  = match spec_table s c with Some _ => true | None => false end.
Proof.
  intros Hs Hc. destruct s, c; try reflexivity; try now elim Hs.
  all: now elim (Hc outcome).
Qed.

(** C2, counterexample.  After [togglePositionControl] the window is in
    [statePosition]; [requestHoming] is then not rejected: the window moves
    to [stateHoming], while the fold of the table stays in
    [statePosition]. *)
Lemma homing_request_not_rejected :
  let cs := [togglePositionControl; requestHoming] in
  let o := run_slots (map slot_of cs) (ScopeWindow_init reliable) in
  _state (world (run_slots (map slot_of (firstn 1 cs)) (ScopeWindow_init reliable)))
  = statePosition /\
  res o = Ok tt /\
  _state (world o) = stateHoming /\
  spec_fold cs = statePosition /\
  _state (world o) <> spec_fold cs.
Proof.
  vm_compute. repeat split. discriminate.
Qed.

(** C2, amended.  The slots do not check the state themselves.  On a drive
    that never raises, for every command sequence in which each command meets
    an entry of the table, every prefix completes and leaves the window in
    the state given by the fold of the table from [stateIdle].  A command
    without entry is not rejected by its slot: [on_btnHoming_clicked] moves
    to [stateHoming] from any state and [onHomingFinished] to [stateIdle]
    from any state. *)
Theorem legal_commands_follow_table :
  (forall (D : Type) (Dev : Device D) (d : D) (cs : list Command) (k : nat),
      never_raises d ->
      spec_legal stateIdle cs = true ->
      let o := run_slots (map slot_of (firstn k cs)) (ScopeWindow_init d) in
      res o = Ok tt /\ _state (world o) = spec_fold (firstn k cs)) /\
  (forall (D : Type) (Dev : Device D) (w : World D),
      _state (world (on_btnHoming_clicked w)) = stateHoming) /\
  (forall (D : Type) (Dev : Device D) (r : string) (w : World D),
      _state (world (onHomingFinished r w)) = stateIdle).
Proof.
  split; [|split].
  - intros D Dev d cs k Hq Hl.
    apply (run_legal (firstn k cs) (ScopeWindow_init d)).
    + exact Hq.
    + intros [H|H]; discriminate H.
    + apply spec_legal_firstn. exact Hl.
  - reflexivity.
  - reflexivity.
Qed.

(** A sequence through all four states, on the quiet drive. *)
Lemma legal_commands_follow_table_witness :
  let cs := [togglePositionControl; togglePositionControl;
             toggleVelocityControl; toggleVelocityControl;
             requestHoming; onHomingComplete "Finished"] in
  never_raises reliable /\
  spec_legal stateIdle cs = true /\
  res (run_slots (map slot_of (firstn 5 cs)) (ScopeWindow_init reliable)) = Ok tt /\
  _state (world (run_slots (map slot_of (firstn 5 cs)) (ScopeWindow_init reliable)))
  = spec_fold (firstn 5 cs).
Proof.
  intros cs. split; [exact reliable_never_raises|]. split; [reflexivity|].
  apply (proj1 legal_commands_follow_table Script scripted reliable cs 5%nat).
  - exact reliable_never_raises.
  - reflexivity.
Defined.

(** C4, counterexample.  In [statePosition], hence not in [stateHoming], a
    delivered outcome is not ignored: the label takes it and the window moves
    to [stateIdle]. *)
Lemma homing_finished_not_ignored :
  let w := world (on_btnPosition_clicked (ScopeWindow_init reliable)) in
  let w' := world (onHomingFinished "Finished" w) in
  _state w = statePosition /\
  _state w' = stateIdle /\
  lblHomingStatus (ui w) = EmptyString /\
  lblHomingStatus (ui w') = "Finished"%string /\
  w' <> w.
Proof.
  vm_compute. repeat split. intros H. discriminate H.
Qed.

(** C4, amended.  [onHomingFinished] has no guard: in every state it
    completes, records the outcome in the label and sets [stateIdle].  It is
    idempotent: delivering the same outcome twice in a row leaves the window
    as delivering it once does. *)
Theorem homing_finished_idempotent
    (D : Type) (Dev : Device D) (r : string) (w : World D) :
  res (onHomingFinished r w) = Ok tt /\
  _state (world (onHomingFinished r w)) = stateIdle /\
  lblHomingStatus (ui (world (onHomingFinished r w))) = r /\
  world (run_slots [HomingFinished r; HomingFinished r] w)
  = world (run_slots [HomingFinished r] w).
Proof.
  repeat split.
Qed.

(** C6, counterexample.  With a drive whose [enable()] raises, the exception
    leaves [on_btnPosition_clicked]: nothing catches it and no status message
    is written. *)
Lemma toggle_error_propagates :
  let o := on_btnPosition_clicked (ScopeWindow_init enable_fails) in
  res o = Raise (ILError "drive fault") /\
  lblHomingStatus (ui (world o)) = EmptyString.
Proof.
  vm_compute. split; reflexivity.
Qed.

Section ToggleErrors.

Context {D : Type} {Dev : Device D}.

(** When a call of the position toggle raises, the toggle raises that
    exception and leaves state and widgets as they were. *)
Lemma toggle_position_propagates (w : World D) (msg : string) :
  first_raise (ops_of (log (on_btnPosition_clicked w))) (dev w) = Some msg ->
  res (on_btnPosition_clicked w) = Raise (ILError msg) /\
  _state (world (on_btnPosition_clicked w)) = _state w /\
  ui (world (on_btnPosition_clicked w)) = ui w.
Proof.
  destruct w as [d st u p ta da ti cu]. cbn [dev _state ui].
  unfold_py. cbn. destruct st; cbn.
  2: repeat (step_call; cbn); intros H; try discriminate H;
     injection H as <-; repeat split.
  all: destruct p as [p|]; cbn;
    repeat (step_call; cbn); intros H; try discriminate H;
    injection H as <-; repeat split.
Qed.

Lemma toggle_velocity_propagates (w : World D) (msg : string) :
  first_raise (ops_of (log (on_btnVelocity_clicked w))) (dev w) = Some msg ->
  res (on_btnVelocity_clicked w) = Raise (ILError msg) /\
  _state (world (on_btnVelocity_clicked w)) = _state w /\
  ui (world (on_btnVelocity_clicked w)) = ui w.
Proof.
  destruct w as [d st u p ta da ti cu]. cbn [dev _state ui].
  unfold_py. cbn. destruct st; cbn.
  2: repeat (step_call; cbn); intros H; try discriminate H;
     injection H as <-; repeat split.
  all: destruct p as [p|]; cbn;
    repeat (step_call; cbn); intros H; try discriminate H;
    injection H as <-; repeat split.
Qed.

End ToggleErrors.

(** C6, amended.  The toggles catch nothing.  When one of the calls that
    [on_btnPosition_clicked] or [on_btnVelocity_clicked] makes on the drive
    raises, the slot itself raises that exception: it leaves the slot
    uncaught, no status message is written (the widgets are untouched), and
    the window stays in the state it was in.  State and widgets are
    untouched whatever exception leaves the slot. *)
Theorem toggle_error_keeps_state
    (D : Type) (Dev : Device D) (w : World D) :
  (forall msg : string,
      first_raise (ops_of (log (on_btnPosition_clicked w))) (dev w) = Some msg ->
      res (on_btnPosition_clicked w) = Raise (ILError msg) /\
      _state (world (on_btnPosition_clicked w)) = _state w /\
      ui (world (on_btnPosition_clicked w)) = ui w) /\
  (forall msg : string,
      first_raise (ops_of (log (on_btnVelocity_clicked w))) (dev w) = Some msg ->
      res (on_btnVelocity_clicked w) = Raise (ILError msg) /\
      _state (world (on_btnVelocity_clicked w)) = _state w /\
      ui (world (on_btnVelocity_clicked w)) = ui w) /\
  (forall e : Exn,
      res (on_btnPosition_clicked w) = Raise e ->
      _state (world (on_btnPosition_clicked w)) = _state w /\
      ui (world (on_btnPosition_clicked w)) = ui w) /\
  (forall e : Exn,
      res (on_btnVelocity_clicked w) = Raise e ->
      _state (world (on_btnVelocity_clicked w)) = _state w /\
      ui (world (on_btnVelocity_clicked w)) = ui w).
Proof.
  split; [|split; [|split]].
  - apply toggle_position_propagates.
  - apply toggle_velocity_propagates.
  - apply toggle_position_raise.
  - apply toggle_velocity_raise.
Qed.

(** Both toggles on a drive whose [enable()] raises, and the position toggle
    clicked again in [statePosition] on a drive whose [disable()] raises. *)
Lemma toggle_error_keeps_state_witness :
  let w := ScopeWindow_init enable_fails in
  let w' := world (on_btnPosition_clicked (ScopeWindow_init disable_fails)) in
  (first_raise (ops_of (log (on_btnPosition_clicked w))) (dev w)
   = Some "drive fault"%string /\
   res (on_btnPosition_clicked w) = Raise (ILError "drive fault") /\
   _state (world (on_btnPosition_clicked w)) = stateIdle) /\
  (first_raise (ops_of (log (on_btnVelocity_clicked w))) (dev w)
   = Some "drive fault"%string /\
   res (on_btnVelocity_clicked w) = Raise (ILError "drive fault") /\
   _state (world (on_btnVelocity_clicked w)) = stateIdle) /\
  (_state w' = statePosition /\
   first_raise (ops_of (log (on_btnPosition_clicked w'))) (dev w')
   = Some "not ready"%string /\
   res (on_btnPosition_clicked w') = Raise (ILError "not ready") /\
   _state (world (on_btnPosition_clicked w')) = statePosition).
Proof.
  intros w w'.
  assert (Hp : first_raise (ops_of (log (on_btnPosition_clicked w))) (dev w)
               = Some "drive fault"%string) by reflexivity.
  assert (Hv : first_raise (ops_of (log (on_btnVelocity_clicked w))) (dev w)
               = Some "drive fault"%string) by reflexivity.
  assert (Hd : first_raise (ops_of (log (on_btnPosition_clicked w'))) (dev w')
               = Some "not ready"%string) by (vm_compute; reflexivity).
  split; [|split].
  - split; [exact Hp|].
    destruct (proj1 (toggle_error_keeps_state Script scripted w) _ Hp)
      as (Hr & Hs & _).
    split; [exact Hr | exact Hs].
  - split; [exact Hv|].
    destruct (proj1 (proj2 (toggle_error_keeps_state Script scripted w)) _ Hv)
      as (Hr & Hs & _).
    split; [exact Hr | exact Hs].
  - split; [vm_compute; reflexivity|]. split; [exact Hd|].
    destruct (proj1 (toggle_error_keeps_state Script scripted w') _ Hd)
      as (Hr & Hs & _).
    split; [exact Hr | rewrite Hs; vm_compute; reflexivity].
Defined.

(** C10, counterexample.  Right after start-up no poller has been created.
    In [stateHoming] the position toggle then raises [AttributeError] at
    [self._poller] inside [disableScope]: nothing is stopped, the drive is
    not disabled and the window stays in [stateHoming]. *)
Lemma toggle_in_fresh_homing_raises :
  let w := world (on_btnHoming_clicked (ScopeWindow_init reliable)) in
  let o := on_btnPosition_clicked w in
  _state w = stateHoming /\
  res o = Raise (AttributeError "'ScopeWindow' object has no attribute '_poller'") /\
  log o = [] /\
  _state (world o) = stateHoming.
Proof.
  vm_compute. repeat split.
Qed.

(** C10, amended.  The toggles branch only on whether the state is
    [stateIdle]: in every other state each of them runs its [else] branch
    ([disableScope], [axis.disable()], [setState(stateIdle)]) instead of
    rejecting the command.  When a poller has been created and neither
    [poller.stop()] nor [axis.disable()] raises, the slot completes, having
    stopped the poller, stopped the timer and disabled the drive, in that
    order, and the window is in [stateIdle]. *)
Theorem toggle_outside_idle_disables
    (D : Type) (Dev : Device D) (w : World D) (p : Poller) :
  _state w <> stateIdle ->
  _poller w = Some p ->
  fst (dev_call PollerStop (dev w)) = None ->
  fst (dev_call Disable (snd (dev_call PollerStop (dev w)))) = None ->
  (on_btnPosition_clicked w
   = (disableScope ;; il_call Disable ;; setState stateIdle) w /\
   on_btnVelocity_clicked w
   = (disableScope ;; il_call Disable ;; setState stateIdle) w) /\
  (forall o : Out D unit,
      o = on_btnPosition_clicked w \/ o = on_btnVelocity_clicked w ->
      res o = Ok tt /\
      log o = [Call PollerStop; TimerStop; Call Disable] /\
      _state (world o) = stateIdle /\
      timer_active (world o) = false /\
      _poller (world o) = Some (mkPoller (poller_reg p) false)).
Proof.
  intros Hs Hp H1 H2.
  pose proof (toggle_position_else w Hs) as Ep.
  pose proof (toggle_velocity_else w Hs) as Ev.
  split; [split; assumption|].
  intros o [-> | ->]; [rewrite Ep | rewrite Ev];
    apply else_branch_effect; assumption.
Qed.

(** The velocity toggle clicked in [statePosition], and the position toggle
    clicked in [stateHoming] after a scope has existed. *)
Lemma toggle_outside_idle_disables_witness :
  let w1 := world (on_btnPosition_clicked (ScopeWindow_init reliable)) in
  let w2 := world (run_slots [BtnPosition; BtnPosition; BtnHoming]
                             (ScopeWindow_init reliable)) in
  (_state w1 = statePosition /\
   log (on_btnVelocity_clicked w1) = [Call PollerStop; TimerStop; Call Disable] /\
   _state (world (on_btnVelocity_clicked w1)) = stateIdle) /\
  (_state w2 = stateHoming /\
   log (on_btnPosition_clicked w2) = [Call PollerStop; TimerStop; Call Disable] /\
   _state (world (on_btnPosition_clicked w2)) = stateIdle).
Proof.
  intros w1 w2. split.
  - split; [reflexivity|].
    assert (Hs : _state w1 <> stateIdle) by (intros H; discriminate H).
    destruct (proj2 (toggle_outside_idle_disables Script scripted w1
                       (mkPoller POS_ACTUAL true)
                       Hs eq_refl eq_refl eq_refl)
                    (on_btnVelocity_clicked w1) (or_intror eq_refl))
      as (_ & Hl & Hst & _).
    split; assumption.
  - split; [reflexivity|].
    assert (Hs : _state w2 <> stateIdle) by (intros H; discriminate H).
    destruct (proj2 (toggle_outside_idle_disables Script scripted w2
                       (mkPoller POS_ACTUAL false)
                       Hs eq_refl eq_refl eq_refl)
                    (on_btnPosition_clicked w2) (or_introl eq_refl))
      as (_ & Hl & Hst & _).
    split; assumption.
Defined.

(** ** The sample buffer *)

Lemma np_roll_left_length (a : list Q) (s : nat) :
  length (np_roll_left a s) = length a.
Proof.
  unfold np_roll_left.
  rewrite length_app, length_skipn, length_firstn.
  destruct (length a) as [|n] eqn:E.
  - cbn. lia.
  - pose proof (Nat.mod_upper_bound s (S n) ltac:(discriminate)). lia.
Qed.

Lemma set_tail_length (a v a' : list Q) (s : nat) :
  set_tail a s v = Some a' -> length a' = length a.
Proof.
  unfold set_tail.
  destruct (length v =? Nat.min s (length a)) eqn:E.
  - apply Nat.eqb_eq in E. intros [= <-].
    rewrite length_app, length_firstn. lia.
  - destruct v as [|x [|y v]]; try discriminate. intros [= <-].
    rewrite length_app, length_firstn, repeat_length. lia.
Qed.

(** Rolling left by [s] and overwriting the last [s] entries by [s] new ones
    drops the first [s] entries and appends the new ones. *)
Lemma roll_then_set_tail (a v : list Q) (s : nat) :
  0 < s <= length a -> length v = s ->
  set_tail (np_roll_left a s) s v = Some (skipn s a ++ v).
Proof.
  intros [Hpos Hle] Hv. unfold set_tail.
  rewrite np_roll_left_length.
  rewrite Nat.min_l by exact Hle.
  rewrite Hv, Nat.eqb_refl. f_equal. f_equal.
  unfold np_roll_left.
  destruct (Nat.eq_dec s (length a)) as [->|Hne].
  - rewrite Nat.Div0.mod_same, Nat.sub_diag, skipn_all. reflexivity.
  - rewrite Nat.mod_small by lia.
    rewrite firstn_app, length_skipn, Nat.sub_diag.
    cbn [firstn]. rewrite app_nil_r.
    apply firstn_all2. rewrite length_skipn. lia.
Qed.

Section BufferFacts.

Context {D : Type} {Dev : Device D}.

(** One tick with a batch of [length d] samples, all of which fit. *)
Lemma tick_push (w : World D) (p : Poller) (t d : list Q) :
  _poller w = Some p ->
  length (_time w) = length (_data w) ->
  length t = length d ->
  0 < length d <= length (_data w) ->
  let o := on_timerPlotUpdate_expired t d w in
  res o = Ok tt /\
  _data (world o) = skipn (length d) (_data w) ++ d /\
  _time (world o) = skipn (length d) (_time w) ++ t /\
  curve (world o) = (_time (world o), _data (world o)) /\
  _poller (world o) = Some p.
Proof.
  intros Hp Hlen Htd Hd. destruct w as [dv st u p0 ta da ti cu].
  cbn [_poller _data _time] in *. subst p0.
  unfold on_timerPlotUpdate_expired, assign_data_tail, assign_time_tail.
  unfold_py. cbn.
  destruct (length d =? 0) eqn:E0; [apply Nat.eqb_eq in E0; lia|].
  cbn.
  rewrite (roll_then_set_tail da d); [|exact Hd|reflexivity].
  cbn.
  rewrite (roll_then_set_tail ti t); [|lia|exact Htd].
  cbn. repeat split.
Qed.

(** One tick with an empty batch changes nothing. *)
Lemma tick_empty (w : World D) (p : Poller) (t : list Q) :
  _poller w = Some p ->
  on_timerPlotUpdate_expired t [] w = mkOut (Ok tt) [] w.
Proof.
  intros Hp. destruct w as [dv st u p0 ta da ti cu].
  cbn [_poller] in Hp. subst p0. reflexivity.
Qed.

(** Any number of ticks whose batches fit keep both arrays at their
    length. *)
Lemma ticks_keep_length (batches : list (list Q * list Q)) (w : World D)
    (p : Poller) (n : nat) :
  _poller w = Some p ->
  length (_data w) = n -> length (_time w) = n ->
  Forall (fun b => length (fst b) = length (snd b) /\ length (snd b) <= n)
         batches ->
  let o := run_slots (map (fun b => TimerExpired (fst b) (snd b)) batches) w in
  res o = Ok tt /\ length (_data (world o)) = n /\ length (_time (world o)) = n.
Proof.
  revert w. induction batches as [|[t d] bs IH]; intros w Hp Hd Ht Hall.
  - cbn. repeat split; assumption.
  - apply Forall_cons_iff in Hall as [[Htd Hle] Hall']. cbn [fst snd] in *.
    cbn [map run_slots handle fst snd].
    destruct (Nat.eq_dec (length d) 0) as [Hz|Hnz].
    + destruct d; [|discriminate Hz].
      rewrite (bind_ok _ _ w tt) by (now rewrite (tick_empty w p t Hp)).
      rewrite (tick_empty w p t Hp). cbn [res log world].
      apply IH; assumption.
    + destruct (tick_push w p t d Hp) as (Hr & Hd' & Ht' & _ & Hp');
        [lia | exact Htd | lia |].
      rewrite (bind_ok _ _ w tt Hr). cbn [res log world].
      apply (IH _ Hp').
      * rewrite Hd', length_app, length_skipn. lia.
      * rewrite Ht', length_app, length_skipn. lia.
      * exact Hall'.
Qed.

(** What [enableScope] has done when it completes. *)
Lemma enableScope_effect (reg : Register) (w : World D) :
  res (enableScope reg w) = Ok tt ->
  let o := enableScope reg w in
  log o = [Call (PollerNew reg _POLLER_T_S _POLLER_BUF_SZ);
           TimerStart (1000 / inject_Z _FPS)%Q; Call PollerStart] /\
  _poller (world o) = Some (mkPoller reg true) /\
  timer_active (world o) = true /\
  _data (world o) = np_zeros _N_SAMPLES /\
  _time (world o) = np_arange (inject_Z (- _N_SAMPLES * _POLLER_T_S) / 1000)%Q
                              0%Q (inject_Z _POLLER_T_S / 1000)%Q.
Proof.
  destruct w as [dv st u p0 ta da ti cu].
  unfold_py. cbn.
  repeat (next_call; cbn); intros H; try discriminate H.
  repeat split.
Qed.

(** What [disableScope] has done when it completes. *)
Lemma disableScope_effect (w : World D) :
  res (disableScope w) = Ok tt ->
  let o := disableScope w in
  log o = [Call PollerStop; TimerStop] /\
  timer_active (world o) = false.
Proof.
  destruct w as [dv st u p0 ta da ti cu].
  unfold_py. cbn. destruct p0 as [p|]; cbn.
  - next_call; cbn; intros H; try discriminate H. split; reflexivity.
  - intros H. discriminate H.
Qed.

End BufferFacts.

(** The placeholders: [N] zeros at [N] negative timestamps. *)
Lemma placeholders :
  length (np_zeros _N_SAMPLES) = N /\
  length (np_arange (inject_Z (- _N_SAMPLES * _POLLER_T_S) / 1000)%Q
                    0%Q (inject_Z _POLLER_T_S / 1000)%Q) = N /\
  Forall (fun x => x = 0%Q) (np_zeros _N_SAMPLES) /\
  Forall (fun x => (x < 0)%Q)
         (np_arange (inject_Z (- _N_SAMPLES * _POLLER_T_S) / 1000)%Q
                    0%Q (inject_Z _POLLER_T_S / 1000)%Q).
Proof.
  split; [|split; [|split]].
  - apply repeat_length.
  - unfold np_arange. rewrite length_map, length_seq. vm_compute. reflexivity.
  - apply Forall_forall. intros x Hx. unfold np_zeros in Hx.
    apply repeat_spec in Hx. exact Hx.
  - apply Forall_forall. intros x Hx.
    assert (Hb : forallb (fun t => negb (Qle_bool 0 t))
                   (np_arange (inject_Z (- _N_SAMPLES * _POLLER_T_S) / 1000)%Q
                              0%Q (inject_Z _POLLER_T_S / 1000)%Q) = true)
      by (vm_compute; reflexivity).
    rewrite forallb_forall in Hb. specialize (Hb x Hx).
    apply negb_true_iff in Hb.
    destruct (Qlt_le_dec x 0) as [Hlt|Hge]; [exact Hlt|].
    apply Qle_bool_iff in Hge. rewrite Hge in Hb. discriminate Hb.
Qed.

(** C7.  When [enableScope] completes, the sample buffer ([_data] and
    [_time]) holds exactly [N = 1000] entries, zeros at negative timestamps;
    after any number of timer ticks whose drained batches hold at most [N]
    samples each, every tick has completed and the buffer still holds exactly
    [N] entries. *)
Theorem buffer_length_is_N
    (D : Type) (Dev : Device D) (w : World D) (reg : Register)
    (batches : list (list Q * list Q)) :
  res (enableScope reg w) = Ok tt ->
  Forall (fun b => length (fst b) = length (snd b) /\ length (snd b) <= N)
         batches ->
  let w0 := world (enableScope reg w) in
  let o := run_slots (map (fun b => TimerExpired (fst b) (snd b)) batches) w0 in
  N = 1000 /\
  (length (_data w0) = N /\ length (_time w0) = N /\
   Forall (fun x => x = 0%Q) (_data w0) /\
   Forall (fun x => (x < 0)%Q) (_time w0)) /\
  res o = Ok tt /\
  length (_data (world o)) = N /\ length (_time (world o)) = N.
Proof.
  intros Hok Hall w0 o.
  destruct (enableScope_effect reg w Hok) as (_ & Hp & _ & Hd & Ht).
  fold w0 in Hp, Hd, Ht.
  destruct placeholders as (Ld & Lt & Zd & Nt).
  split; [reflexivity|]. split.
  - rewrite Hd, Ht. repeat split; assumption.
  - apply (ticks_keep_length batches w0 (mkPoller reg true) N Hp).
    + rewrite Hd. exact Ld.
    + rewrite Ht. exact Lt.
    + exact Hall.
Qed.

(** The scope enabled on the quiet drive, then three ticks: five samples,
    none, five samples. *)
Lemma buffer_length_is_N_witness :
  let w := ScopeWindow_init reliable in
  let batches := [(five_t, five_d); ([], []); (five_t, five_d)] in
  let w0 := world (enableScope POS_ACTUAL w) in
  let o := run_slots (map (fun b => TimerExpired (fst b) (snd b)) batches) w0 in
  res (enableScope POS_ACTUAL w) = Ok tt /\
  length (_data w0) = N /\ length (_time w0) = N /\
  res o = Ok tt /\
  length (_data (world o)) = N /\ length (_time (world o)) = N.
Proof.
  intros w batches w0 o.
  assert (Hok : res (enableScope POS_ACTUAL w) = Ok tt) by reflexivity.
  assert (Hall : Forall (fun b => length (fst b) = length (snd b) /\
                                  length (snd b) <= N) batches).
  { assert (H5 : length five_d <= N) by (unfold N; cbn; lia).
    assert (H0 : @length Q [] <= N) by (cbn; lia).
    apply Forall_cons; [split; [reflexivity | exact H5]|].
    apply Forall_cons; [split; [reflexivity | exact H0]|].
    apply Forall_cons; [split; [reflexivity | exact H5]|].
    apply Forall_nil. }
  destruct (buffer_length_is_N Script scripted w POS_ACTUAL batches Hok Hall)
    as (_ & (Hd & Ht & _ & _) & Hr & Hd' & Ht').
  repeat split; assumption.
Defined.

(** C8.  A tick that drains [M] samples, [0 < M <= N], into a buffer of [N]
    entries completes and leaves the buffer without its [M] oldest entries,
    the other [N - M] in their order, followed by the [M] new samples in
    their order.  In particular, from start-up on the quiet drive, after the
    position toggle and one tick draining [(0.01, 1.0) ... (0.05, 5.0)], the
    last five entries of the buffer are these samples, in order, and the
    buffer holds [N] entries. *)
Theorem push_drops_oldest :
  (forall (D : Type) (Dev : Device D) (w : World D) (p : Poller)
          (t d : list Q),
      _poller w = Some p ->
      length (_data w) = N -> length (_time w) = N ->
      length t = length d ->
      0 < length d <= N ->
      let o := on_timerPlotUpdate_expired t d w in
      res o = Ok tt /\
      _data (world o) = skipn (length d) (_data w) ++ d /\
      _time (world o) = skipn (length d) (_time w) ++ t /\
      length (_data (world o)) = N /\ length (_time (world o)) = N) /\
  (let w := world (on_btnPosition_clicked (ScopeWindow_init reliable)) in
   let o := on_timerPlotUpdate_expired five_t five_d w in
   _state w = statePosition /\
   res o = Ok tt /\
   skipn (N - 5) (_time (world o)) = five_t /\
   skipn (N - 5) (_data (world o)) = five_d /\
   length (_data (world o)) = N /\ length (_time (world o)) = N).
Proof.
  split.
  - intros D Dev w p t d Hp Hd Ht Htd Hm o.
    destruct (tick_push w p t d Hp) as (Hr & Hd' & Ht' & _ & _);
      [lia | exact Htd | lia |].
    fold o in Hr, Hd', Ht'.
    repeat split; try assumption.
    + rewrite Hd', length_app, length_skipn. lia.
    + rewrite Ht', length_app, length_skipn. lia.
  - vm_compute. repeat split.
Qed.

(** The tick of the scenario, through the general statement. *)
Lemma push_drops_oldest_witness :
  let w := world (on_btnPosition_clicked (ScopeWindow_init reliable)) in
  let o := on_timerPlotUpdate_expired five_t five_d w in
  (length five_t = length five_d /\ 0 < length five_d <= N) /\
  res o = Ok tt /\
  _data (world o) = skipn (length five_d) (_data w) ++ five_d /\
  _time (world o) = skipn (length five_d) (_time w) ++ five_t /\
  length (_data (world o)) = N /\ length (_time (world o)) = N.
Proof.
  intros w o.
  assert (Hm : 0 < length five_d <= N) by (unfold N; cbn; lia).
  split; [split; [reflexivity | exact Hm]|].
  apply (proj1 push_drops_oldest Script scripted w
           (mkPoller POS_ACTUAL true) five_t five_d);
    [reflexivity | vm_compute; reflexivity | vm_compute; reflexivity
    | reflexivity | exact Hm].
Defined.

(** ** The scope life cycle *)

Section ScopeFacts.

Context {D : Type} {Dev : Device D}.

(** A slot that completes keeps an active timer together with a running
    poller. *)
Lemma handle_keeps_consistent (s : Slot) (w : World D) :
  scope_consistent w ->
  res (handle s w) = Ok tt ->
  scope_consistent (world (handle s w)).
Proof.
  destruct w as [dv st u p0 ta da ti cu]. unfold scope_consistent.
  cbn [timer_active _poller]. intros Hc.
  destruct s; cbn [handle].
  - (* on_btnHoming_clicked *) intros _. exact Hc.
  - (* on_btnPosition_clicked *)
    unfold_py. cbn. destruct st; cbn.
    2: repeat (next_call; cbn); intros H; try discriminate H;
       intros _; eexists; split; reflexivity.
    all: destruct p0 as [p|]; cbn;
      repeat (next_call; cbn); intros H; try discriminate H;
      intros H'; discriminate H'.
  - (* on_btnVelocity_clicked *)
    unfold_py. cbn. destruct st; cbn.
    2: repeat (next_call; cbn); intros H; try discriminate H;
       intros _; eexists; split; reflexivity.
    all: destruct p0 as [p|]; cbn;
      repeat (next_call; cbn); intros H; try discriminate H;
      intros H'; discriminate H'.
  - (* onHomingFinished *) intros _. exact Hc.
  - (* on_dialPosition_valueChanged *)
    unfold_py. cbn. next_call; cbn; intros H; try discriminate H. exact Hc.
  - (* on_dialVelocity_valueChanged *)
    unfold_py. cbn. next_call; cbn; intros H; try discriminate H. exact Hc.
  - (* on_timerPlotUpdate_expired *)
    unfold on_timerPlotUpdate_expired, assign_data_tail, assign_time_tail.
    unfold_py. cbn. destruct p0 as [p|]; cbn; [|intros H; discriminate H].
    destruct (length d =? 0); cbn; [intros _; exact Hc|].
    destruct (set_tail (np_roll_left da (length d)) (length d) d); cbn;
      [|intros H; discriminate H].
    destruct (set_tail (np_roll_left ti (length d)) (length d) t); cbn;
      [|intros H; discriminate H].
    intros _. exact Hc.
Qed.

End ScopeFacts.

(** C9, counterexample.  [enableScope] starts the timer before the poller,
    and [disableScope] stops the timer after the poller: in both logs there
    is a point where the timer is active and the poller is not running. *)
Lemma pump_active_without_poller :
  let w := ScopeWindow_init reliable in
  let w' := world (enableScope POS_ACTUAL w) in
  log (enableScope POS_ACTUAL w)
  = [Call (PollerNew POS_ACTUAL 10 100); TimerStart (1000 # 30);
     Call PollerStart] /\
  pump_inside_poller false false (log (enableScope POS_ACTUAL w)) = false /\
  log (disableScope w') = [Call PollerStop; TimerStop] /\
  pump_inside_poller true true (log (disableScope w')) = false.
Proof.
  vm_compute. repeat split.
Qed.

Section ScopeRuns.

Context {D : Type} {Dev : Device D}.

(** Slots that have all completed keep an active timer together with a
    running poller. *)
Lemma run_slots_consistent (l : list Slot) (w : World D) :
  scope_consistent w ->
  res (run_slots l w) = Ok tt ->
  scope_consistent (world (run_slots l w)).
Proof.
  revert w. induction l as [|s l IH]; intros w Hc Hr.
  - exact Hc.
  - cbn [run_slots] in *. unfold bind in *.
    pose proof (handle_keeps_consistent s w Hc) as Hs.
    destruct (handle s w) as [[[]|e] ls ws]; cbn [res log world] in *;
      [|discriminate Hr].
    specialize (IH ws (Hs eq_refl)).
    destruct (run_slots l ws) as [r lr wr]; cbn [res log world] in *.
    apply IH. exact Hr.
Qed.

End ScopeRuns.

(** C9, amended.  [enableScope] creates the poller, starts the timer and
    then starts the poller; [disableScope] stops the poller and then stops
    the timer: the timer's activity encloses the poller's.  Both orders lie
    inside one slot: from start-up, as long as every slot so far has
    completed, an active timer has a running poller after each slot.  Once
    a slot has raised this need not hold: after [poller.start()] has raised
    in the position toggle, the homing button's slot completes with the
    timer active and the poller not running. *)
Theorem timer_encloses_poller :
  (forall (D : Type) (Dev : Device D) (w : World D) (reg : Register),
      res (enableScope reg w) = Ok tt ->
      log (enableScope reg w)
      = [Call (PollerNew reg _POLLER_T_S _POLLER_BUF_SZ);
         TimerStart (1000 / inject_Z _FPS)%Q; Call PollerStart]) /\
  (forall (D : Type) (Dev : Device D) (w : World D),
      res (disableScope w) = Ok tt ->
      log (disableScope w) = [Call PollerStop; TimerStop]) /\
  (forall (D : Type) (Dev : Device D) (d : D) (l : list Slot),
      res (run_slots l (ScopeWindow_init d)) = Ok tt ->
      scope_consistent (world (run_slots l (ScopeWindow_init d)))) /\
  (res (handle BtnPosition (ScopeWindow_init poller_start_fails))
   = Raise (ILError "no thread") /\
   res (handle BtnHoming
          (world (handle BtnPosition (ScopeWindow_init poller_start_fails))))
   = Ok tt /\
   timer_active after_failed_start = true /\
   _poller after_failed_start = Some (mkPoller POS_ACTUAL false) /\
   ~ scope_consistent after_failed_start).
Proof.
  split; [|split; [|split]].
  - intros D Dev w reg H. apply (enableScope_effect reg w H).
  - intros D Dev w H. apply (disableScope_effect w H).
  - intros D Dev d l H. apply run_slots_consistent; [|exact H].
    intros Ht. discriminate Ht.
  - split; [reflexivity|]. split; [reflexivity|].
    split; [reflexivity|]. split; [reflexivity|].
    intros Hc. destruct (Hc eq_refl) as (p & Hp & Hrun).
    injection Hp as <-. discriminate Hrun.
Qed.

(** Position control with a tick, left again, then the homing button, on
    the quiet drive: every slot completes. *)
Lemma timer_encloses_poller_witness :
  let o := run_slots demo_slots (ScopeWindow_init reliable) in
  res o = Ok tt /\
  scope_consistent (world o) /\
  scope_consistent (world (run_slots (firstn 2 demo_slots)
                             (ScopeWindow_init reliable))) /\
  timer_active (world (run_slots (firstn 2 demo_slots)
                         (ScopeWindow_init reliable))) = true.
Proof.
  intros o.
  assert (Hok : res o = Ok tt) by (vm_compute; reflexivity).
  destruct timer_encloses_poller as (_ & _ & Hrun & _).
  split; [exact Hok|]. split; [|split].
  - exact (Hrun Script scripted reliable demo_slots Hok).
  - apply (Hrun Script scripted reliable (firstn 2 demo_slots)).
    vm_compute. reflexivity.
  - vm_compute. reflexivity.
Defined.

(** * Further properties *)

(** ** The homing runner *)

Section RunnerFacts.

Context {D : Type} {Dev : Device D}.

(** X1.  [HomingRunner.run] ends with [axis.disable()] on every path, and
    its own outcome is the outcome of that call: exceptions of the mode
    setter, [enable()], [homing_start()] and [homing_wait()] never leave
    [run]; it raises exactly when the final [disable()] raises, with that
    exception. *)
Theorem run_outcome_is_disable_outcome (t : Z) (w : World D) :
  let l := log (HomingRunner_run t w) in
  last l ThreadStart = Call Disable /\
  res (HomingRunner_run t w)
  = match fst (dev_call Disable (after (ops_of (removelast l)) (dev w))) with
    | None => Ok tt
    | Some msg => Raise (ILError msg)
    end.
Proof.
  destruct w as [d st u p ta da ti cu].
  unfold_py. cbn.
  unfold after, ops_of.
  repeat (step_call; cbn); split; reflexivity.
Qed.

(** X2.  On a drive that never raises, [run] sets the homing mode, enables
    the drive, starts homing, waits with the given timeout, reports
    ["Finished"] once and disables the drive, in this order, and
    completes. *)
Theorem run_happy_path (t : Z) (w : World D) :
  never_raises (dev w) ->
  res (HomingRunner_run t w) = Ok tt /\
  log (HomingRunner_run t w)
  = [Call (SetMode MODE_HOMING); Call Enable; Call HomingStart;
     Call (HomingWait t); Emit "Finished"; Call Disable].
Proof.
  intros Hq. destruct w as [d st u p ta da ti cu]. cbn [dev] in Hq.
  unfold_py. cbn.
  repeat (quiet_call Hq; cbn). split; reflexivity.
Qed.

End RunnerFacts.

Section HomingRunFacts.

Context {D : Type} {Dev : Device D}.

(** [run] changes nothing of the window but the drive. *)
Lemma run_only_drive (t : Z) (w : World D) :
  world (HomingRunner_run t w)
  = set_dev (dev (world (HomingRunner_run t w))) w.
Proof.
  destruct w as [d st u p ta da ti cu].
  unfold_py. cbn.
  repeat (next_call; cbn); reflexivity.
Qed.

(** The events of [run] are calls on the axis and emissions. *)
Lemma run_events (t : Z) (w : World D) :
  Forall (fun e => match e with
                   | Call (SetMode MODE_HOMING) | Call Enable
                   | Call HomingStart | Call (HomingWait _) | Call Disable
                   | Emit _ => True
                   | _ => False
                   end) (log (HomingRunner_run t w)).
Proof.
  destruct w as [d st u p ta da ti cu].
  unfold_py. cbn.
  repeat (next_call; cbn); repeat constructor.
Qed.

(** Delivering outcomes: the label ends with the last one, the controls are
    those of [stateIdle], nothing else changes. *)
Lemma deliver_label (msgs : list string) (w : World D) :
  msgs <> [] ->
  let w' := world (run_slots (map HomingFinished msgs) w) in
  lblHomingStatus (ui w') = last msgs EmptyString /\
  controls (ui w') = (true, true, true, true, false, true, false,
                      "Enable"%string, "Enable"%string) /\
  plot_label (ui w') = plot_label (ui w) /\
  plot_yrange (ui w') = plot_yrange (ui w) /\
  dev w' = dev w /\ _poller w' = _poller w /\
  timer_active w' = timer_active w /\
  _data w' = _data w /\ _time w' = _time w /\ curve w' = curve w.
Proof.
  revert w. induction msgs as [|m msgs IH]; intros w Hne; [now elim Hne|].
  cbn [map run_slots handle].
  rewrite (bind_ok _ (onHomingFinished m) w tt eq_refl). cbn [world].
  destruct msgs as [|m' msgs].
  - cbn. repeat split.
  - specialize (IH (world (onHomingFinished m w)) ltac:(discriminate)).
    cbn zeta in IH.
    destruct IH as (H1 & H2 & H3 & H4 & H5 & H6 & H7 & H8 & H9 & H10).
    rewrite H1, H2, H3, H4, H5, H6, H7, H8, H9, H10.
    repeat split.
Qed.

(** The world and the log of a homing run, piece by piece. *)
Lemma homing_run_pieces (w : World D) :
  let w1 := world (on_btnHoming_clicked w) in
  let o := HomingRunner_run _HOMING_TIMEOUT w1 in
  world (homing_run w)
  = world (run_slots (map HomingFinished (emitted (log o))) (world o)) /\
  log (homing_run w) = ThreadStart :: log o /\
  emitted (log o) <> [].
Proof.
  intros w1 o. unfold homing_run.
  rewrite (bind_ok _ on_btnHoming_clicked w tt eq_refl).
  fold w1. cbn [res log world].
  pose proof (run_emitted_length _HOMING_TIMEOUT w1) as Hlen.
  fold o in Hlen |- *.
  destruct o as [r l w2]. cbn [log world] in *.
  destruct (deliver_effect (emitted l) w2) as (_ & Hl & _).
  destruct (run_slots (map HomingFinished (emitted l)) w2) as [r' l' w3].
  cbn [res log world] in *. subst l'. rewrite app_nil_r.
  repeat split. intros Hnil. rewrite Hnil in Hlen.
  destruct (res (homing_setup w1)); discriminate Hlen.
Qed.

(** X3.  After a homing run the status label shows the last outcome the
    worker emitted (so, after a failed setup, the outcome of the homing that
    was attempted all the same), and the controls are those of [stateIdle]:
    axis selector, the three tabs and the homing button enabled, both dials
    disabled, both toggles reading ["Enable"]. *)
Theorem homing_run_shows_last_outcome (w : World D) :
  let w' := world (homing_run w) in
  lblHomingStatus (ui w') = last (emitted (log (homing_run w))) EmptyString /\
  controls (ui w') = (true, true, true, true, false, true, false,
                      "Enable"%string, "Enable"%string).
Proof.
  destruct (homing_run_pieces w) as (Hw & Hl & Hne).
  cbn zeta. rewrite Hw, Hl.
  destruct (deliver_label _ (world (HomingRunner_run _HOMING_TIMEOUT
                                      (world (on_btnHoming_clicked w)))) Hne)
    as (H1 & H2 & _).
  split; [|exact H2]. rewrite H1. reflexivity.
Qed.

(** X4.  A homing run never touches the scope: the timer is neither started
    nor stopped, no poller is created, started or stopped, and the timer
    flag, the poller, the sample buffer, the curve and the plot's label and
    range are what they were before the click. *)
Theorem homing_run_leaves_scope (w : World D) :
  let w' := world (homing_run w) in
  touches_timer (log (homing_run w)) = false /\
  calls (fun op => match op with
                   | PollerNew _ _ _ | PollerStart | PollerStop => true
                   | _ => false
                   end) (log (homing_run w)) = false /\
  timer_active w' = timer_active w /\
  _poller w' = _poller w /\
  _data w' = _data w /\ _time w' = _time w /\ curve w' = curve w /\
  plot_label (ui w') = plot_label (ui w) /\
  plot_yrange (ui w') = plot_yrange (ui w).
Proof.
  destruct (homing_run_pieces w) as (Hw & Hl & Hne).
  cbn zeta. rewrite Hw, Hl.
  set (w1 := world (on_btnHoming_clicked w)) in *.
  destruct (deliver_label _ (world (HomingRunner_run _HOMING_TIMEOUT w1)) Hne)
    as (_ & _ & H3 & H4 & _ & H6 & H7 & H8 & H9 & H10).
  rewrite H3, H4, H6, H7, H8, H9, H10.
  rewrite (run_only_drive _HOMING_TIMEOUT w1).
  pose proof (run_events _HOMING_TIMEOUT w1) as Hev.
  split; [|split].
  - cbn [touches_timer existsb]. unfold touches_timer.
    apply not_true_is_false. intros Hex.
    apply existsb_exists in Hex as (e & Hin & He).
    rewrite Forall_forall in Hev. specialize (Hev e Hin).
    destruct e as [[]| | | |]; try discriminate He; try contradiction.
  - unfold calls. cbn [existsb].
    apply not_true_is_false. intros Hex.
    apply existsb_exists in Hex as (e & Hin & He).
    rewrite Forall_forall in Hev. specialize (Hev e Hin).
    destruct e as [[]| | | |]; try discriminate He; try contradiction.
  - destruct w; repeat split.
Qed.

End HomingRunFacts.

(** ** Controls, state and scope under operation through the widgets *)

Section GuiFacts.

Context {D : Type} {Dev : Device D}.

(** Unfold the timer slot as well. *)
Ltac unfold_tick :=
  unfold on_timerPlotUpdate_expired, assign_data_tail, assign_time_tail;
  unfold_py.

(** Split on the two slice assignments of a tick. *)
Ltac tick_cases :=
  repeat match goal with
         | |- context [length ?d =? 0] => destruct (length d =? 0); cbn
         | |- context [set_tail ?a ?s ?v] => destruct (set_tail a s v); cbn
         end.

(** The controls at start-up, after a slot, and what they allow. *)
Lemma controls_kept :
  (forall d : D, ui_agrees (ScopeWindow_init d)) /\
  (forall (s : Slot) (w : World D),
      ui_agrees w ->
      slot_enabled (ui w) s = true ->
      ui_agrees (world (handle s w))) /\
  (forall w : World D,
      ui_agrees w ->
      (slot_enabled (ui w) BtnHoming,
       slot_enabled (ui w) BtnPosition,
       slot_enabled (ui w) BtnVelocity)
      = match _state w with
        | stateIdle => (true, true, true)
        | statePosition => (false, true, false)
        | stateVelocity => (false, false, true)
        | _ => (false, false, false)
        end).
Proof.
  split; [|split].
  - intros d. reflexivity.
  - intros s [d st u p ta da ti cu]. unfold ui_agrees, controls.
    destruct u as [cb th bh lbl tp dp bp tv dv bv pl yr].
    cbn [_state ui cboxAxes_enabled tabHoming_enabled btnHoming_enabled
         tabPosition_enabled dialPosition_enabled tabVelocity_enabled
         dialVelocity_enabled btnPosition_text btnVelocity_text slot_enabled].
    intros Hag Hen.
    destruct st; cbn [controls_of] in Hag; try discriminate Hag;
      injection Hag as <- <- <- <- <- <- <- <- <-;
      destruct s; cbn in Hen; try discriminate Hen; cbn [handle];
      unfold_tick; cbn;
      try (destruct p as [p|]; cbn);
      tick_cases;
      repeat (next_call; cbn); reflexivity.
  - intros [d st u p ta da ti cu]. unfold ui_agrees, controls.
    destruct u as [cb th bh lbl tp dp bp tv dv bv pl yr].
    cbn. intros Hag.
    destruct st; cbn in Hag; try discriminate Hag;
      injection Hag as <- <- <- <- <- <- <- <- <-; reflexivity.
Qed.

(** X5.  The controls stay in step with the state.  The window starts with
    the controls of [stateIdle]; whenever the controls are those of the
    state and a slot is triggered that the widgets allow (a button or dial
    that is enabled inside an enabled tab, a delivered homing outcome, a
    timer tick), the controls are again those of the state afterwards, on
    every drive and whether the slot completes or raises.  So in
    [stateHoming] no button can be clicked, in [statePosition] only the
    position toggle, in [stateVelocity] only the velocity toggle. *)
Theorem controls_follow_state :
  (forall d : D, ui_agrees (ScopeWindow_init d)) /\
  (forall (s : Slot) (w : World D),
      ui_agrees w ->
      slot_enabled (ui w) s = true ->
      ui_agrees (world (handle s w))) /\
  (forall w : World D,
      ui_agrees w ->
      (slot_enabled (ui w) BtnHoming,
       slot_enabled (ui w) BtnPosition,
       slot_enabled (ui w) BtnVelocity)
      = match _state w with
        | stateIdle => (true, true, true)
        | statePosition => (false, true, false)
        | stateVelocity => (false, false, true)
        | _ => (false, false, false)
        end).
Proof.
  split; [|split].
  - intros d. reflexivity.
  - intros s [d st u p ta da ti cu]. unfold ui_agrees, controls.
    destruct u as [cb th bh lbl tp dp bp tv dv bv pl yr].
    cbn [_state ui cboxAxes_enabled tabHoming_enabled btnHoming_enabled
         tabPosition_enabled dialPosition_enabled tabVelocity_enabled
         dialVelocity_enabled btnPosition_text btnVelocity_text slot_enabled].
    intros Hag Hen.
    destruct st; cbn [controls_of] in Hag; try discriminate Hag;
      injection Hag as <- <- <- <- <- <- <- <- <-;
      destruct s; cbn in Hen; try discriminate Hen; cbn [handle];
      unfold_tick; cbn;
      try (destruct p as [p|]; cbn);
      tick_cases;
      repeat (next_call; cbn); reflexivity.
  - intros [d st u p ta da ti cu]. unfold ui_agrees, controls.
    destruct u as [cb th bh lbl tp dp bp tv dv bv pl yr].
    cbn. intros Hag.
    destruct st; cbn in Hag; try discriminate Hag;
      injection Hag as <- <- <- <- <- <- <- <- <-; reflexivity.
Qed.

(** The scope after a slot on a quiet drive. *)
Lemma scope_kept (s : Slot) (w : World D) :
  ui_agrees w ->
  scope_matches w ->
  never_raises (dev w) ->
  slot_enabled (ui w) s = true ->
  (forall r, s = HomingFinished r -> _state w = stateHoming) ->
  let o := handle s w in
  scope_matches (world o) /\
  never_raises (dev (world o)) /\
  ((forall t d, s <> TimerExpired t d) -> res o = Ok tt).
Proof.
  destruct w as [d st u p ta da ti cu]. unfold ui_agrees, controls, scope_matches.
  destruct u as [cb th bh lbl tp dp bp tv dv bv pl yr].
  cbn [_state ui dev _poller timer_active plot_label plot_yrange
       cboxAxes_enabled tabHoming_enabled btnHoming_enabled
       tabPosition_enabled dialPosition_enabled tabVelocity_enabled
       dialVelocity_enabled btnPosition_text btnVelocity_text slot_enabled].
  intros Hag Hsm Hq Hen Hhf.
  destruct st; cbn [controls_of] in Hag; try discriminate Hag;
    injection Hag as <- <- <- <- <- <- <- <- <-;
    destruct s; cbn in Hen; try discriminate Hen;
    try (specialize (Hhf _ eq_refl); discriminate Hhf); clear Hhf;
    cbn [handle].
  all: try (destruct Hsm as (-> & -> & -> & ->)).
  all: try (destruct Hsm as (-> & Hsm)).
  all: unfold_tick; cbn.
  all: try (destruct p as [p|]; cbn).
  all: tick_cases.
  all: repeat (quiet_call Hq; cbn).
  all: repeat split; try assumption; try reflexivity.
  all: try (intros H; now elim (H t d0)).
  all: try (intros H; now elim (H t d)).
  all: try (intros p' [= <-]; reflexivity).
  all: try (intros p' [= <-]; apply (Hsm _ eq_refl)).
  all: try (intros p' Hp'; discriminate Hp').
Qed.

(** X6.  On a drive that never raises, operated through the widgets with
    homing outcomes delivered only in [stateHoming], the scope goes with the
    state: after every slot, in [statePosition] the timer is active, the
    poller runs on [POS_ACTUAL] and the plot reads position in degrees over
    +/-370; in [stateVelocity] likewise on [VEL_ACTUAL] in rps over +/-50;
    in every other state the timer is inactive and no poller runs.  Every
    slot but the timer's completes. *)
Theorem scope_follows_state (s : Slot) (w : World D) :
  ui_agrees w ->
  scope_matches w ->
  never_raises (dev w) ->
  slot_enabled (ui w) s = true ->
  (forall r, s = HomingFinished r -> _state w = stateHoming) ->
  let o := handle s w in
  scope_matches (world o) /\
  never_raises (dev (world o)) /\
  ((forall t d, s <> TimerExpired t d) -> res o = Ok tt).
Proof.
  destruct w as [d st u p ta da ti cu]. unfold ui_agrees, controls, scope_matches.
  destruct u as [cb th bh lbl tp dp bp tv dv bv pl yr].
  cbn [_state ui dev _poller timer_active plot_label plot_yrange
       cboxAxes_enabled tabHoming_enabled btnHoming_enabled
       tabPosition_enabled dialPosition_enabled tabVelocity_enabled
       dialVelocity_enabled btnPosition_text btnVelocity_text slot_enabled].
  intros Hag Hsm Hq Hen Hhf.
  destruct st; cbn [controls_of] in Hag; try discriminate Hag;
    injection Hag as <- <- <- <- <- <- <- <- <-;
    destruct s; cbn in Hen; try discriminate Hen;
    try (specialize (Hhf _ eq_refl); discriminate Hhf); clear Hhf;
    cbn [handle].
  all: try (destruct Hsm as (-> & -> & -> & ->)).
  all: try (destruct Hsm as (-> & Hsm)).
  all: unfold_tick; cbn.
  all: try (destruct p as [p|]; cbn).
  all: tick_cases.
  all: repeat (quiet_call Hq; cbn).
  all: repeat split; try assumption; try reflexivity.
  all: try (intros H; now elim (H t d0)).
  all: try (intros H; now elim (H t d)).
  all: try (intros p' [= <-]; reflexivity).
  all: try (intros p' [= <-]; apply (Hsm _ eq_refl)).
  all: try (intros p' Hp'; discriminate Hp').
Qed.

(** X7.  What a failed enabling leaves behind.  In [stateIdle] a toggle
    never calls [axis.disable()], never stops the poller and never stops the
    timer, whether it completes or raises.  When it raises, the window stays
    in [stateIdle]; if [poller.start()] had been reached, the timer is left
    active with a poller that is not running; otherwise timer and poller are
    as before. *)
Theorem failed_enable_is_not_undone (w : World D) :
  _state w = stateIdle ->
  (forall o : Out D unit,
      o = on_btnPosition_clicked w \/ o = on_btnVelocity_clicked w ->
      disable_calls (log o) = 0 /\
      ~ In (Call PollerStop) (log o) /\
      ~ In TimerStop (log o)) /\
  (forall e : Exn,
      res (on_btnPosition_clicked w) = Raise e ->
      let o := on_btnPosition_clicked w in
      _state (world o) = stateIdle /\
      (In (Call PollerStart) (log o) ->
       timer_active (world o) = true /\
       _poller (world o) = Some (mkPoller POS_ACTUAL false)) /\
      (~ In (Call PollerStart) (log o) ->
       timer_active (world o) = timer_active w /\
       _poller (world o) = _poller w)) /\
  (forall e : Exn,
      res (on_btnVelocity_clicked w) = Raise e ->
      let o := on_btnVelocity_clicked w in
      _state (world o) = stateIdle /\
      (In (Call PollerStart) (log o) ->
       timer_active (world o) = true /\
       _poller (world o) = Some (mkPoller VEL_ACTUAL false)) /\
      (~ In (Call PollerStart) (log o) ->
       timer_active (world o) = timer_active w /\
       _poller (world o) = _poller w)).
Proof.
  destruct w as [d st u p ta da ti cu]. cbn [_state]. intros ->.
  split; [|split].
  - intros o [-> | ->]; unfold_py; cbn;
      repeat (next_call; cbn);
      (split; [reflexivity|]); split; intros Hin; cbn in Hin;
      intuition discriminate.
  - intros e. unfold_py; cbn.
    repeat (next_call; cbn); intros H; try discriminate H;
    (split; [reflexivity|]); split;
    try (intros _; split; reflexivity);
    try (intros Hin; cbn in Hin; exfalso; intuition discriminate);
    try (intros Hn; exfalso; apply Hn; cbn; intuition).
  - intros e. unfold_py; cbn.
    repeat (next_call; cbn); intros H; try discriminate H;
    (split; [reflexivity|]); split;
    try (intros _; split; reflexivity);
    try (intros Hin; cbn in Hin; exfalso; intuition discriminate);
    try (intros Hn; exfalso; apply Hn; cbn; intuition).
Qed.

End GuiFacts.

(** ** The sample buffer as a sliding window *)

Lemma lastn_push {A : Type} (n m : nat) (a x : list A) :
  length a = n -> m <= n -> m <= length x ->
  lastn n (skipn m a ++ x) = lastn n (a ++ x).
Proof.
  intros Ha Hm Hx. unfold lastn.
  rewrite !length_app, length_skipn, Ha.
  replace (n - m + length x - n) with (length x - m) by lia.
  replace (n + length x - n) with ((length x - m) + m) by lia.
  rewrite <- skipn_skipn. f_equal.
  rewrite skipn_app, Ha.
  replace (m - n) with 0 by lia. reflexivity.
Qed.

Lemma lastn_all {A : Type} (n : nat) (a : list A) :
  length a = n -> lastn n a = a.
Proof. intros <-. unfold lastn. now rewrite Nat.sub_diag. Qed.

Lemma lastn_length {A : Type} (n : nat) (l : list A) :
  n <= length l -> length (lastn n l) = n.
Proof. intros H. unfold lastn. rewrite length_skipn. lia. Qed.

Lemma ascending_tail (a : Q) (l : list Q) :
  ascending (a :: l) = true -> ascending l = true.
Proof.
  destruct l as [|b l]; [reflexivity|]. cbn [ascending].
  intros H. apply andb_true_iff in H. apply H.
Qed.

Lemma ascending_skipn (k : nat) (l : list Q) :
  ascending l = true -> ascending (skipn k l) = true.
Proof.
  revert l. induction k as [|k IH]; intros l H; [exact H|].
  destruct l as [|a l]; [reflexivity|].
  cbn [skipn]. apply IH. exact (ascending_tail a l H).
Qed.

Lemma ascending_app (l1 l2 : list Q) :
  ascending l1 = true -> ascending l2 = true ->
  (forall x y, In x l1 -> In y l2 -> (x <= y)%Q) ->
  ascending (l1 ++ l2) = true.
Proof.
  induction l1 as [|a l1 IH]; intros H1 H2 Hb; [exact H2|].
  destruct l1 as [|b l1].
  - cbn [app]. destruct l2 as [|y l2]; [reflexivity|].
    cbn [ascending]. apply andb_true_iff. split; [|exact H2].
    apply Qle_bool_iff. apply Hb; now left.
  - cbn [app ascending] in *. apply andb_true_iff in H1 as [Hab H1].
    apply andb_true_iff. split; [exact Hab|].
    apply IH; [exact H1 | exact H2 |].
    intros x y Hx Hy. apply Hb; [now right | exact Hy].
Qed.

Section WindowFacts.

Context {D : Type} {Dev : Device D}.

(** X8.  A tick that drained no values does nothing at all: no array is
    rolled and the curve is not redrawn, whatever timestamps came with it.
    A tick on a window whose scope was never enabled raises
    [AttributeError] at [self._poller] and changes nothing. *)
Theorem tick_without_samples (w : World D) (t d : list Q) :
  (forall p, _poller w = Some p -> d = [] ->
             on_timerPlotUpdate_expired t d w = mkOut (Ok tt) [] w) /\
  (_poller w = None ->
   on_timerPlotUpdate_expired t d w
   = mkOut (Raise (AttributeError
                     "'ScopeWindow' object has no attribute '_poller'"))
           [] w).
Proof.
  destruct w as [dv st u p0 ta da ti cu]. cbn [_poller]. split.
  - intros p -> ->. reflexivity.
  - intros ->. reflexivity.
Qed.

(** X9.  A batch with more values than the buffer holds makes the tick raise
    [ValueError] at the assignment of the values, after the values were
    rolled: the values are left rotated, the timestamps are not, and the
    curve is not redrawn.  Both arrays keep their length. *)
Theorem tick_oversize_batch (w : World D) (p : Poller) (t d : list Q) :
  _poller w = Some p ->
  0 < length (_data w) < length d ->
  let o := on_timerPlotUpdate_expired t d w in
  res o = Raise (ValueError "could not broadcast input array") /\
  _data (world o) = np_roll_left (_data w) (length d) /\
  _time (world o) = _time w /\
  curve (world o) = curve w /\
  length (_data (world o)) = length (_data w).
Proof.
  intros Hp Hlen. destruct w as [dv st u p0 ta da ti cu].
  cbn [_poller _data _time curve] in *. subst p0.
  unfold on_timerPlotUpdate_expired, assign_data_tail, assign_time_tail.
  unfold_py. cbn.
  destruct (length d =? 0) eqn:E0; [apply Nat.eqb_eq in E0; lia|].
  cbn.
  assert (Hst : set_tail (np_roll_left da (length d)) (length d) d = None).
  { unfold set_tail. rewrite np_roll_left_length.
    rewrite Nat.min_r by lia.
    destruct (length d =? length da) eqn:E; [apply Nat.eqb_eq in E; lia|].
    destruct d as [|x [|y d]]; cbn [length] in *; try lia. reflexivity. }
  rewrite Hst. cbn. repeat split. apply np_roll_left_length.
Qed.

(** Ticks whose batches fit: the buffer is the last [n] entries of
    everything it held and was given. *)
Lemma ticks_window (batches : list (list Q * list Q)) (w : World D)
    (p : Poller) (n : nat) :
  _poller w = Some p ->
  length (_data w) = n -> length (_time w) = n ->
  Forall (fun b => length (fst b) = length (snd b) /\ length (snd b) <= n)
         batches ->
  let o := run_slots (ticks batches) w in
  res o = Ok tt /\
  _data (world o) = lastn n (_data w ++ concat (map snd batches)) /\
  _time (world o) = lastn n (_time w ++ concat (map fst batches)).
Proof.
  revert w. induction batches as [|[t d] bs IH]; intros w Hp Hd Ht Hall.
  - cbn. rewrite !app_nil_r, !lastn_all by assumption. repeat split.
  - apply Forall_cons_iff in Hall as [[Htd Hle] Hall']. cbn [fst snd] in *.
    unfold ticks. cbn [map run_slots handle fst snd concat].
    fold (ticks bs).
    destruct (Nat.eq_dec (length d) 0) as [Hz|Hnz].
    + destruct d; [|discriminate Hz]. destruct t; [|discriminate Htd].
      rewrite (bind_ok _ _ w tt) by (now rewrite (tick_empty w p [] Hp)).
      rewrite (tick_empty w p [] Hp). cbn [res log world app].
      apply IH; assumption.
    + destruct (tick_push w p t d Hp) as (Hr & Hd' & Ht' & _ & Hp');
        [lia | exact Htd | lia |].
      rewrite (bind_ok _ _ w tt Hr). cbn [res log world].
      destruct (IH _ Hp') as (Hr' & Hd'' & Ht'').
      * rewrite Hd', length_app, length_skipn. lia.
      * rewrite Ht', length_app, length_skipn. lia.
      * exact Hall'.
      * split; [exact Hr'|]. rewrite Hd'', Ht'', Hd', Ht'.
        rewrite <- !app_assoc. split.
        -- apply lastn_push; [exact Hd | exact Hle |].
           rewrite length_app. lia.
        -- rewrite <- Htd. apply lastn_push; [exact Ht | lia |].
           rewrite length_app. lia.
Qed.

(** X10.  The buffer is a sliding window over everything pushed since the
    scope was enabled: when [enableScope] has completed and any number of
    ticks have drained batches of at most [N] samples each, every tick has
    completed and the values (timestamps) are the last [N] entries of the
    [N] placeholders followed by all drained values (timestamps), in the
    order drained. *)
Theorem buffer_is_sliding_window (w : World D) (reg : Register)
    (batches : list (list Q * list Q)) :
  res (enableScope reg w) = Ok tt ->
  Forall (fun b => length (fst b) = length (snd b) /\ length (snd b) <= N)
         batches ->
  let w0 := world (enableScope reg w) in
  let o := run_slots (ticks batches) w0 in
  res o = Ok tt /\
  _data (world o) = lastn N (_data w0 ++ concat (map snd batches)) /\
  _time (world o) = lastn N (_time w0 ++ concat (map fst batches)).
Proof.
  intros Hok Hall w0 o.
  destruct (enableScope_effect reg w Hok) as (_ & Hp & _ & Hd & Ht).
  fold w0 in Hp, Hd, Ht.
  destruct placeholders as (Ld & Lt & _ & _).
  apply (ticks_window batches w0 (mkPoller reg true) N Hp).
  - rewrite Hd. exact Ld.
  - rewrite Ht. exact Lt.
  - exact Hall.
Qed.

(** X11.  Chronological order is kept.  When the drained timestamps, taken
    all together in the order drained, are non-negative and non-decreasing,
    the timestamps of the buffer are non-decreasing after any number of
    ticks. *)
Theorem buffer_time_ascending (w : World D) (reg : Register)
    (batches : list (list Q * list Q)) :
  res (enableScope reg w) = Ok tt ->
  Forall (fun b => length (fst b) = length (snd b) /\ length (snd b) <= N)
         batches ->
  Forall (fun x => (0 <= x)%Q) (concat (map fst batches)) ->
  ascending (concat (map fst batches)) = true ->
  ascending (_time (world (run_slots (ticks batches)
                                     (world (enableScope reg w))))) = true.
Proof.
  intros Hok Hall Hpos Hasc.
  destruct (ticks_window batches (world (enableScope reg w))
              (mkPoller reg true) N) as (_ & _ & Ht).
  - apply (enableScope_effect reg w Hok).
  - destruct (enableScope_effect reg w Hok) as (_ & _ & _ & -> & _).
    apply placeholders.
  - destruct (enableScope_effect reg w Hok) as (_ & _ & _ & _ & ->).
    apply placeholders.
  - exact Hall.
  - rewrite Ht. unfold lastn. apply ascending_skipn.
    destruct (enableScope_effect reg w Hok) as (_ & _ & _ & _ & ->).
    apply ascending_app; [vm_compute; reflexivity | exact Hasc |].
    intros x y Hx Hy.
    destruct placeholders as (_ & _ & _ & Hneg).
    rewrite Forall_forall in Hneg, Hpos.
    apply Qlt_le_weak. apply Qlt_le_trans with 0%Q; [apply Hneg, Hx | apply Hpos, Hy].
Qed.

End WindowFacts.

(** ** Axis discovery *)

Section DiscoveryFacts.

Context {Net Axis : Type}.

Lemma loadAxes_axes_ok (bus : Bus Net Axis) (net : Net) (dev : string)
    (found : list BinNums.N) (model model' : list (Item Axis)) :
  loadAxes_axes bus net dev found model = Ok model' ->
  model' = model ++ flat_map (fun axis_id =>
                     match il_Axis bus net axis_id _AXIS_TIMEOUT with
                     | Created axis => [mkItem (axis_label axis_id dev) axis]
                     | _ => []
                     end) found.
Proof.
  revert model. induction found as [|a found IH]; intros model H; cbn in *.
  - injection H as <-. now rewrite app_nil_r.
  - destruct (il_Axis bus net a _AXIS_TIMEOUT) as [ax| |e].
    + rewrite (IH _ H). now rewrite <- app_assoc.
    + exact (IH _ H).
    + discriminate H.
Qed.

Lemma loadAxes_devs_ok (bus : Bus Net Axis) (devs : list string)
    (model model' : list (Item Axis)) :
  loadAxes_devs bus devs model = Ok model' ->
  model' = model ++ flat_map (fun dev =>
                     match il_Network bus dev with
                     | Created net => axes_created bus net dev
                     | _ => []
                     end) devs.
Proof.
  revert model. induction devs as [|dev devs IH]; intros model H; cbn in *.
  - injection H as <-. now rewrite app_nil_r.
  - destruct (il_Network bus dev) as [net| |e].
    + destruct (loadAxes_axes bus net dev (net_axes bus net) model)
        as [m|e] eqn:E; [|discriminate H].
      rewrite (IH _ H). rewrite (loadAxes_axes_ok _ _ _ _ _ _ E). unfold axes_created.
      now rewrite <- app_assoc.
    + exact (IH _ H).
    + discriminate H.
Qed.

Lemma loadAxes_axes_total (bus : Bus Net Axis) (net : Net) (dev : string)
    (found : list BinNums.N) (model : list (Item Axis)) :
  only_creation_errors bus ->
  exists model', loadAxes_axes bus net dev found model = Ok model'.
Proof.
  intros [_ Hax]. revert model.
  induction found as [|a found IH]; intros model; cbn.
  - eexists. reflexivity.
  - destruct (il_Axis bus net a _AXIS_TIMEOUT) as [ax| |e] eqn:E.
    + apply IH.
    + apply IH.
    + now elim (Hax net a _AXIS_TIMEOUT e).
Qed.

Lemma loadAxes_devs_total (bus : Bus Net Axis) (devs : list string)
    (model : list (Item Axis)) :
  only_creation_errors bus ->
  exists model', loadAxes_devs bus devs model = Ok model'.
Proof.
  intros Hoc. revert model.
  induction devs as [|dev devs IH]; intros model; cbn.
  - eexists. reflexivity.
  - destruct (il_Network bus dev) as [net| |e] eqn:E.
    + destruct (loadAxes_axes_total bus net dev (net_axes bus net) model Hoc)
        as [m ->]. apply IH.
    + apply IH.
    + now elim (proj1 Hoc dev e).
Qed.

(** X12.  [loadAxes] skips what cannot be constructed and keeps going.  When
    the only exceptions on the bus are creation errors, it completes, and
    the model holds exactly the axes that could be constructed on the
    networks that could be constructed, in the order of discovery, each
    with its label; so a port without network, or an axis that cannot be
    constructed, costs no other row.  Whenever it completes, the model is
    that list. *)
Theorem loadAxes_keeps_what_was_created (bus : Bus Net Axis) :
  (only_creation_errors bus -> loadAxes bus = Ok (discovered bus)) /\
  (forall model, loadAxes bus = Ok model -> model = discovered bus).
Proof.
  assert (H2 : forall model, loadAxes bus = Ok model -> model = discovered bus).
  { intros model H. apply loadAxes_devs_ok in H. exact H. }
  split; [|exact H2].
  intros Hoc.
  destruct (loadAxes_devs_total bus (il_devices bus) [] Hoc) as [m Hm].
  unfold loadAxes. rewrite Hm. f_equal. apply H2. exact Hm.
Qed.

End DiscoveryFacts.

(** The digits written for a positive number hold no space. *)
Fixpoint of_pos_no_space (p : positive) (rest : string) {struct p} :
  no_space rest = true -> no_space (HexString.Raw.of_pos p rest) = true.
Proof.
  intros H.
  do 4 try destruct p as [p|p|]; try (cbn; exact H);
    cbn [HexString.Raw.of_pos]; apply of_pos_no_space; cbn; exact H.
Qed.

Lemma hex02_no_space (n : BinNums.N) : no_space (hex02 n) = true.
Proof.
  unfold hex02, hex.
  destruct (n <? 16)%N; destruct n as [|p]; try reflexivity;
    cbn [no_space]; try apply of_pos_no_space; reflexivity.
Qed.

(** Reading the digits back gives the number. *)
Lemma hex02_value (n : BinNums.N) : HexString.Raw.to_N (hex02 n) 0%N = n.
Proof.
  unfold hex02, hex.
  destruct (n <? 16)%N; destruct n as [|p]; try reflexivity.
  - cbn [HexString.Raw.to_N]. cbn.
    apply (HexString.Raw.to_N_of_pos p EmptyString 0%N).
  - apply (HexString.Raw.to_N_of_pos p EmptyString 0%N).
Qed.

(** Two texts cut at their first space. *)
Lemma split_at_space (h h' r r' : string) :
  no_space h = true -> no_space h' = true ->
  String.append h (String " "%char r) = String.append h' (String " "%char r') ->
  h = h' /\ r = r'.
Proof.
  revert h'. induction h as [|c h IH]; intros [|c' h'] Hh Hh' E; cbn in *.
  - injection E as ->. split; reflexivity.
  - injection E as <- _. apply andb_true_iff in Hh' as [Hc _].
    cbn in Hc. discriminate Hc.
  - injection E as -> _. apply andb_true_iff in Hh as [Hc _].
    cbn in Hc. discriminate Hc.
  - injection E as -> E.
    apply andb_true_iff in Hh as [_ Hh]. apply andb_true_iff in Hh' as [_ Hh'].
    destruct (IH h' Hh Hh' E) as [-> ->]. split; reflexivity.
Qed.

Lemma string_length_append (a b : string) :
  String.length (String.append a b) = String.length a + String.length b.
Proof. induction a as [|c a IH]; cbn; [reflexivity | now rewrite IH]. Qed.

Lemma append_same_suffix (a b s : string) :
  String.append a s = String.append b s -> a = b.
Proof.
  intros E.
  assert (Hl : String.length a = String.length b).
  { apply (f_equal String.length) in E.
    rewrite !string_length_append in E. lia. }
  revert b E Hl. induction a as [|c a IH]; intros [|c' b] E Hl;
    cbn in *; try discriminate Hl; [reflexivity|].
  injection E as -> E. f_equal. apply IH; [exact E | lia].
Qed.

(** X13.  The label of a row tells the axis and the port apart from every
    other: two labels are equal only for the same axis number and the same
    port name, whatever characters the port name holds. *)
Theorem axis_label_injective (axis_id axis_id' : BinNums.N) (dev dev' : string) :
  axis_label axis_id dev = axis_label axis_id' dev' ->
  axis_id = axis_id' /\ dev = dev'.
Proof.
  unfold axis_label. cbn [String.append]. intros E.
  injection E as E.
  apply split_at_space in E as [Hh E]; try apply hex02_no_space.
  split.
  - rewrite <- (hex02_value axis_id), <- (hex02_value axis_id'), Hh.
    reflexivity.
  - injection E as E. apply (append_same_suffix _ _ _ E).
Qed.

(** * The build script *)

(** X14.  The CMake generator.  Off Windows it is ["Unix Makefiles"] for
    every Python version and word size.  On [win32] the choice raises
    [ImportError] exactly for versions below 2.7 (major below 2, or 2 with
    minor below 7); for every other version it is one of the three Visual
    Studio generators, followed by [" Win64"] exactly when [sys.maxsize]
    exceeds [2**32]. *)
Theorem cmake_generator_choice
    (platform : string) (version_info : Z * Z) (maxsize : Z) :
  (platform <> "win32"%string ->
   _CMAKE_GENERATOR platform version_info maxsize
   = Built "Unix Makefiles"%string) /\
  (platform = "win32"%string ->
   (_CMAKE_GENERATOR platform version_info maxsize
    = Failed (ImportError "Unsupported Python version")
    <-> (fst version_info < 2
         \/ (fst version_info = 2 /\ snd version_info < 7))%Z) /\
   (forall g, _CMAKE_GENERATOR platform version_info maxsize = Built g ->
      exists base,
        In base ["Visual Studio 14 2015"; "Visual Studio 10 2010";
                 "Visual Studio 9 2008"]%string /\
        g = if (2 ^ 32 <? maxsize)%Z
            then String.append base " Win64" else base)).
Proof.
  split.
  - intros Hp. unfold _CMAKE_GENERATOR.
    destruct (String.eqb_spec platform "win32"); [contradiction|reflexivity].
  - intros ->. destruct version_info as [major minor].
    unfold _CMAKE_GENERATOR, version_ge. rewrite String.eqb_refl.
    cbn [fst snd].
    destruct (Z.ltb_spec 3 major), (Z.eqb_spec major 3),
             (Z.leb_spec 5 minor), (Z.leb_spec 3 minor),
             (Z.ltb_spec 2 major), (Z.eqb_spec major 2),
             (Z.leb_spec 7 minor);
      cbn [orb andb]; try lia;
      destruct (2 ^ 32 <? maxsize)%Z.
    all: split;
      [ split; [intros E; try discriminate E; lia
               | intros E; try reflexivity; exfalso; lia]
      | intros g E; try discriminate E; injection E as <-;
        first [ exists "Visual Studio 14 2015"%string;
                split; [cbn; tauto | reflexivity]
              | exists "Visual Studio 10 2010"%string;
                split; [cbn; tauto | reflexivity]
              | exists "Visual Studio 9 2008"%string;
                split; [cbn; tauto | reflexivity] ] ].
Qed.

(** X15.  The libraries to link.  On every platform the list starts with
    [ingenialink] followed by [sercomm] and names no library twice; [udev]
    is linked exactly on the platforms whose name starts with [linux]; extra
    linker arguments are given exactly on [darwin]. *)
Theorem link_libraries (platform : string) :
  (exists extra,
      _get_libs platform = "ingenialink"%string :: "sercomm"%string :: extra) /\
  NoDup (_get_libs platform) /\
  (In "udev"%string (_get_libs platform)
   <-> String.prefix "linux" platform = true) /\
  (_get_link_args platform <> [] <-> platform = "darwin"%string).
Proof.
  unfold _get_libs, _get_link_args.
  destruct (String.prefix "linux" platform) eqn:Hl;
    destruct (String.eqb_spec platform "darwin") as [Hd|Hd];
    destruct (String.eqb_spec platform "win32") as [Hw|Hw];
    try (subst; discriminate);
    (split; [eexists; reflexivity|]);
    (split; [repeat constructor; cbn; intuition discriminate|]);
    split; split; intros X; try reflexivity; try assumption;
    try discriminate X; try (now elim X);
    try (cbn in X; intuition discriminate);
    try (cbn; tauto); try contradiction.
Qed.

Section BuildFacts.

Context {H : Type} {Host : BuildHost H}.

(** X16.  Both tools are required before anything is run: when [git] or
    [cmake] is not found, [_build_deps] raises [FileNotFoundError] without
    having run a single command, also when both source trees are given by
    the environment and nothing would be cloned. *)
Theorem build_needs_both_tools
    (generator : string) (ser il : Dep) (h : H) :
  not_found (find_executable "git" h) = true \/
  not_found (find_executable "cmake" h) = true ->
  let o := _build_deps generator ser il h in
  (exists msg, bres o = Failed (FileNotFoundError msg)) /\
  cmds o = [] /\
  host o = h.
Proof.
  intros Hnf. unfold _build_deps.
  destruct (not_found (find_executable "git" h)) eqn:Eg.
  - cbn. repeat split. eexists. reflexivity.
  - destruct Hnf as [Hnf|Hnf]; [discriminate Hnf|]. rewrite Hnf.
    cbn. repeat split. eexists. reflexivity.
Qed.

(** Split on the next [os.path.exists], clone source or [check_call]. *)
Ltac build_step :=
  match goal with
  | |- context [path_exists ?p ?h] =>
      is_var h; destruct (path_exists p h) eqn:?; cbn
  | |- context [check_call ?c ?h] =>
      is_var h;
      let st := fresh "st" in
      let h' := fresh "h" in
      destruct (check_call c h) as [[st|] h'] eqn:?; cbn
  end.





(** X18.  Sources given by the environment are never cloned.  When
    [SERCOMM_DIR] and [INGENIALINK_DIR] are both set, no [git clone] is run,
    whether or not the directories exist, and a build that completes has run
    exactly four commands: configure and install on the sercomm directory
    given, then configure and install on the ingenialink directory
    given. *)
Theorem given_sources_are_not_cloned
    (generator sep : string) (environ : string -> option string)
    (sdir idir : string) (h : H) (git cmake : string) :
  environ "SERCOMM_DIR"%string = Some sdir ->
  environ "INGENIALINK_DIR"%string = Some idir ->
  find_executable "git" h = Some git -> git <> EmptyString ->
  find_executable "cmake" h = Some cmake -> cmake <> EmptyString ->
  let ser := sercomm_dep sep environ in
  let il := ingenialink_dep sep environ in
  let o := _build_deps generator ser il h in
  dep_src ser = sdir /\ dep_src il = idir /\
  Forall (fun c => hd EmptyString c = cmake) (cmds o) /\
  (bres o = Built tt ->
   cmds o = [configure_cmd cmake generator ser; install_cmd cmake ser;
             configure_cmd cmake generator il; install_cmd cmake il]).
Proof.
  intros Es Ei Hg Hgne Hc Hcne.
  unfold sercomm_dep, ingenialink_dep. rewrite Es, Ei. cbn zeta.
  split; [reflexivity|]. split; [reflexivity|].
  unfold _build_deps. rewrite Hg, Hc. cbn [not_found].
  destruct (String.eqb_spec git ""); [contradiction|].
  destruct (String.eqb_spec cmake ""); [contradiction|].
  unfold and_then, clone_if_missing, run_cmd.
  cbn [dep_remote dep_src dep_build].
  repeat build_step;
    (split; [repeat constructor | intros X; try discriminate X; reflexivity]).
Qed.

End BuildFacts.

(** * The further properties at concrete inputs *)

(** X2 on the quiet drive. *)
Lemma run_happy_path_witness :
  let w := ScopeWindow_init reliable in
  never_raises (dev w) /\
  res (HomingRunner_run _HOMING_TIMEOUT w) = Ok tt /\
  log (HomingRunner_run _HOMING_TIMEOUT w)
  = [Call (SetMode MODE_HOMING); Call Enable; Call HomingStart;
     Call (HomingWait _HOMING_TIMEOUT); Emit "Finished"; Call Disable].
Proof.
  intros w. split; [exact reliable_never_raises|].
  apply (@run_happy_path Script scripted _HOMING_TIMEOUT w).
  exact reliable_never_raises.
Defined.

(** X5: the position toggle clicked at start-up. *)
Lemma controls_follow_state_witness :
  let w := ScopeWindow_init reliable in
  ui_agrees w /\
  slot_enabled (ui w) BtnPosition = true /\
  ui_agrees (world (handle BtnPosition w)).
Proof.
  intros w.
  destruct (@controls_follow_state Script scripted) as (Hinit & Hkeep & _).
  split; [exact (Hinit reliable)|]. split; [reflexivity|].
  exact (Hkeep BtnPosition w (Hinit reliable) eq_refl).
Defined.

(** X6: the velocity toggle clicked at start-up on the quiet drive. *)
Lemma scope_follows_state_witness :
  let w := ScopeWindow_init reliable in
  let o := handle BtnVelocity w in
  _state (world o) = stateVelocity /\
  scope_matches (world o) /\
  never_raises (dev (world o)) /\
  ((forall t d, BtnVelocity <> TimerExpired t d) -> res o = Ok tt).
Proof.
  intros w o. split; [reflexivity|].
  apply (@scope_follows_state Script scripted BtnVelocity w).
  - reflexivity.
  - split; [reflexivity|]. intros p Hp. discriminate Hp.
  - exact reliable_never_raises.
  - reflexivity.
  - intros r Hr. discriminate Hr.
Defined.

(** X7: the position toggle on a drive whose [poller.start()] raises. *)
Lemma failed_enable_is_not_undone_witness :
  let w := ScopeWindow_init poller_start_fails in
  let o := on_btnPosition_clicked w in
  res o = Raise (ILError "no thread") /\
  _state (world o) = stateIdle /\
  (disable_calls (log o) = 0 /\
   ~ In (Call PollerStop) (log o) /\
   ~ In TimerStop (log o)) /\
  timer_active (world o) = true /\
  _poller (world o) = Some (mkPoller POS_ACTUAL false).
Proof.
  intros w o.
  assert (Hr : res o = Raise (ILError "no thread")) by reflexivity.
  split; [exact Hr|].
  destruct (@failed_enable_is_not_undone Script scripted w eq_refl)
    as (Hnever & Hpos & _).
  destruct (Hpos (ILError "no thread") Hr) as (Hs & Hin & _).
  split; [exact Hs|]. split; [exact (Hnever o (or_introl eq_refl))|].
  apply Hin. vm_compute. do 5 right. left. reflexivity.
Defined.

(** X8: timestamps without values on an enabled scope, and a tick at
    start-up. *)
Lemma tick_without_samples_witness :
  let w := world (enableScope POS_ACTUAL (ScopeWindow_init reliable)) in
  on_timerPlotUpdate_expired five_t [] w = mkOut (Ok tt) [] w /\
  res (on_timerPlotUpdate_expired five_t five_d (ScopeWindow_init reliable))
  = Raise (AttributeError "'ScopeWindow' object has no attribute '_poller'").
Proof.
  intros w. split.
  - exact (proj1 (@tick_without_samples Script w five_t [])
                 (mkPoller POS_ACTUAL true) eq_refl eq_refl).
  - rewrite (proj2 (@tick_without_samples Script
                      (ScopeWindow_init reliable) five_t five_d) eq_refl).
    reflexivity.
Defined.

(** X9: three samples into a buffer of two. *)
Lemma tick_oversize_batch_witness :
  let o := on_timerPlotUpdate_expired [1; 2; 3]%Q [7; 8; 9]%Q small_world in
  res o = Raise (ValueError "could not broadcast input array") /\
  _data (world o) = [2; 1]%Q /\
  _time (world o) = [(-2) # 100; (-1) # 100]%Q.
Proof.
  intros o.
  destruct (@tick_oversize_batch Script small_world
              (mkPoller POS_ACTUAL true) [1; 2; 3]%Q [7; 8; 9]%Q eq_refl)
    as (Hr & Hd & Ht & _).
  - cbn. lia.
  - split; [exact Hr|]. split; [exact Hd | exact Ht].
Defined.

Lemma demo_batches_fit :
  Forall (fun b => length (fst b) = length (snd b) /\ length (snd b) <= N)
         demo_batches.
Proof.
  assert (H5 : 5 <= N) by (unfold N; cbn; lia).
  repeat (apply Forall_cons; [split; [reflexivity | cbn; lia]|]).
  apply Forall_nil.
Qed.

(** X10: seven samples in three ticks. *)
Lemma buffer_is_sliding_window_witness :
  let w0 := world (enableScope POS_ACTUAL (ScopeWindow_init reliable)) in
  let o := run_slots (ticks demo_batches) w0 in
  res o = Ok tt /\
  _data (world o) = lastn N (_data w0 ++ [1; 2; 3; 4; 5; 6; 7]%Q) /\
  _time (world o)
  = lastn N (_time w0 ++ five_t ++ [6 # 100; 7 # 100]%Q).
Proof.
  intros w0 o.
  exact (@buffer_is_sliding_window Script scripted (ScopeWindow_init reliable)
           POS_ACTUAL demo_batches eq_refl demo_batches_fit).
Defined.

(** X11: the same ticks keep the timestamps in order. *)
Lemma buffer_time_ascending_witness :
  ascending (concat (map fst demo_batches)) = true /\
  ascending (_time (world (run_slots (ticks demo_batches)
                             (world (enableScope POS_ACTUAL
                                       (ScopeWindow_init reliable)))))) = true.
Proof.
  split; [reflexivity|].
  apply (@buffer_time_ascending Script scripted (ScopeWindow_init reliable)
           POS_ACTUAL demo_batches eq_refl demo_batches_fit).
  - repeat (apply Forall_cons; [unfold Qle; cbn; lia|]). apply Forall_nil.
  - reflexivity.
Defined.

Lemma demo_bus_only_creation_errors : only_creation_errors demo_bus.
Proof.
  split.
  - intros dev e. cbn. destruct (String.eqb dev "ttyS0"); discriminate.
  - intros net axis_id t e. cbn. destruct (axis_id =? 32)%N; discriminate.
Qed.

(** X12: a port without network and an axis that cannot be constructed. *)
Lemma loadAxes_keeps_what_was_created_witness :
  loadAxes demo_bus = Ok (discovered demo_bus) /\
  map item_text (discovered demo_bus)
  = ["0x01 (ttyACM0)"; "0xff (ttyACM0)"; "0x04 (ttyUSB1)"]%string.
Proof.
  split; [|reflexivity].
  exact (proj1 (loadAxes_keeps_what_was_created demo_bus)
               demo_bus_only_creation_errors).
Defined.

(** X13: one label. *)
Lemma axis_label_injective_witness :
  axis_label 255 "ttyACM0" = "0xff (ttyACM0)"%string /\
  (255 = 255)%N /\ "ttyACM0"%string = "ttyACM0"%string.
Proof.
  split; [reflexivity|].
  exact (axis_label_injective 255 255 "ttyACM0" "ttyACM0" eq_refl).
Defined.

(** X14: Python 2.6 and Python 3.4 (64 bit) on Windows, any Python on
    Linux. *)
Lemma cmake_generator_choice_witness :
  _CMAKE_GENERATOR "win32" (2, 6)%Z (2 ^ 31 - 1)%Z
  = Failed (ImportError "Unsupported Python version") /\
  (exists base,
      In base ["Visual Studio 14 2015"; "Visual Studio 10 2010";
               "Visual Studio 9 2008"]%string /\
      "Visual Studio 10 2010 Win64"%string = String.append base " Win64") /\
  _CMAKE_GENERATOR "linux" (2, 6)%Z (2 ^ 63 - 1)%Z
  = Built "Unix Makefiles"%string.
Proof.
  split; [|split].
  - apply (proj1 (proj2 (cmake_generator_choice "win32" (2, 6)%Z (2 ^ 31 - 1)%Z)
                        eq_refl)).
    right. cbn. lia.
  - exact (proj2 (proj2 (cmake_generator_choice "win32" (3, 4)%Z (2 ^ 63 - 1)%Z)
                        eq_refl)
                 "Visual Studio 10 2010 Win64"%string eq_refl).
  - apply (proj1 (cmake_generator_choice "linux" (2, 6)%Z (2 ^ 63 - 1)%Z)).
    intros E. discriminate E.
Defined.

(** X15: [linux2], as Python 2 names the platform. *)
Lemma link_libraries_witness :
  String.prefix "linux" "linux2" = true /\
  In "udev"%string (_get_libs "linux2") /\
  _get_link_args "darwin" <> [].
Proof.
  split; [reflexivity|]. split.
  - apply (proj1 (proj2 (proj2 (link_libraries "linux2")))). reflexivity.
  - apply (proj2 (proj2 (proj2 (link_libraries "darwin")))). reflexivity.
Defined.

(** X16: no [git], both source trees given and present. *)
Lemma build_needs_both_tools_witness :
  let ser := sercomm_dep "/" given_environ in
  let il := ingenialink_dep "/" given_environ in
  let o := _build_deps "Unix Makefiles" ser il gitless_machine in
  dep_remote ser = None /\ dep_remote il = None /\
  (exists msg, bres o = Failed (FileNotFoundError msg)) /\
  cmds o = [] /\
  host o = gitless_machine.
Proof.
  intros ser il o. split; [reflexivity|]. split; [reflexivity|].
  apply (@build_needs_both_tools Machine machine_host
           "Unix Makefiles" ser il gitless_machine).
  left. reflexivity.
Defined.


(** X18: both source trees given on a bare machine. *)
Lemma given_sources_are_not_cloned_witness :
  let ser := sercomm_dep "/" given_environ in
  let il := ingenialink_dep "/" given_environ in
  let o := _build_deps "Unix Makefiles" ser il bare_machine in
  bres o = Built tt /\
  dep_src ser = "/src/sercomm"%string /\
  dep_src il = "/src/ingenialink"%string /\
  Forall (fun c => hd EmptyString c = "/usr/bin/cmake"%string) (cmds o) /\
  (bres o = Built tt ->
   cmds o = [configure_cmd "/usr/bin/cmake" "Unix Makefiles" ser;
             install_cmd "/usr/bin/cmake" ser;
             configure_cmd "/usr/bin/cmake" "Unix Makefiles" il;
             install_cmd "/usr/bin/cmake" il]).
Proof.
  intros ser il o. split; [reflexivity|].
  apply (@given_sources_are_not_cloned Machine machine_host
           "Unix Makefiles" "/" given_environ
           "/src/sercomm" "/src/ingenialink" bare_machine
           "/usr/bin/git" "/usr/bin/cmake");
    try reflexivity; intros E; discriminate E.
Defined.

(** * Motion sessions on a drive that never raises *)

Section SessionFacts.

Context {D : Type} {Dev : Device D}.

Lemma drive_enabled_app (l1 l2 : list Event) (b : bool) :
  drive_enabled (l1 ++ l2) b = drive_enabled l2 (drive_enabled l1 b).
Proof. unfold drive_enabled. apply fold_left_app. Qed.

(** A motion slot on a quiet drive: the drive is enabled afterwards exactly
    when the new state is a motion state, and the window is not in
    [stateHoming]. *)
Lemma slot_drive (s : Slot) (w : World D) :
  ui_agrees w ->
  scope_matches w ->
  never_raises (dev w) ->
  _state w <> stateHoming ->
  motion_slot_enabled (ui w) s = true ->
  drive_enabled (log (handle s w)) (in_motion (_state w))
  = in_motion (_state (world (handle s w))) /\
  _state (world (handle s w)) <> stateHoming.
Proof.
  destruct w as [d st u p ta da ti cu]. unfold ui_agrees, controls, scope_matches.
  destruct u as [cb th bh lbl tp dp bp tv dv bv pl yr].
  cbn [_state ui dev _poller timer_active plot_label plot_yrange
       cboxAxes_enabled tabHoming_enabled btnHoming_enabled
       tabPosition_enabled dialPosition_enabled tabVelocity_enabled
       dialVelocity_enabled btnPosition_text btnVelocity_text
       motion_slot_enabled slot_enabled].
  intros Hag Hsm Hq Hnh Hen.
  destruct st; cbn [controls_of] in Hag; try discriminate Hag;
    try (now elim Hnh); clear Hnh;
    injection Hag as <- <- <- <- <- <- <- <- <-;
    destruct s; cbn in Hen; try discriminate Hen;
    cbn [handle].
  all: try (destruct Hsm as (-> & -> & -> & ->)).
  all: try (destruct Hsm as (-> & Hsm)).
  all: unfold on_timerPlotUpdate_expired, assign_data_tail, assign_time_tail;
    unfold_py; cbn.
  all: try (destruct p as [p|]; cbn).
  all: repeat match goal with
         | |- context [length ?d =? 0] => destruct (length d =? 0); cbn
         | |- context [set_tail ?a ?s ?v] => destruct (set_tail a s v); cbn
         end.
  all: repeat (quiet_call Hq; cbn).
  all: split; [reflexivity | discriminate].
Qed.

(** One slot of a motion session. *)
Lemma slot_step (s : Slot) (w : World D) :
  ui_agrees w ->
  scope_matches w ->
  never_raises (dev w) ->
  _state w <> stateHoming ->
  motion_slot_enabled (ui w) s = true ->
  let o := handle s w in
  ui_agrees (world o) /\
  scope_matches (world o) /\
  never_raises (dev (world o)) /\
  _state (world o) <> stateHoming /\
  drive_enabled (log o) (in_motion (_state w)) = in_motion (_state (world o)).
Proof.
  intros Hag Hsm Hq Hnh Hen.
  assert (Hse : slot_enabled (ui w) s = true).
  { destruct s; cbn in Hen |- *; try discriminate Hen; try exact Hen;
      reflexivity. }
  assert (Hhf : forall r, s = HomingFinished r -> _state w = stateHoming).
  { intros r ->. cbn in Hen. discriminate Hen. }
  destruct (scope_kept s w Hag Hsm Hq Hse Hhf) as (H1 & H2 & _).
  destruct (slot_drive s w Hag Hsm Hq Hnh Hen) as (Hdr & Hnh').
  split; [exact (proj1 (proj2 controls_kept) s w Hag Hse)|].
  split; [exact H1|]. split; [exact H2|]. split; [exact Hnh' | exact Hdr].
Qed.

(** X19.  On a drive that never raises, operated from start-up through the
    toggles, the dials and timer ticks with any batches, all triggered only
    when the widgets allow it and without starting a homing run, after every
    slot the window is in [stateIdle], [statePosition] or [stateVelocity]
    and the drive is enabled exactly in the latter two: over the calls made
    so far, the last of [enable()] and [disable()] is [enable()] in these
    two states and [disable()], or neither, in [stateIdle].  The controls
    and the scope go with the state throughout. *)
Theorem drive_enabled_only_in_motion (d : D) (l : list Slot) :
  never_raises d ->
  operated_slots l (ScopeWindow_init d) ->
  let o := run_slots l (ScopeWindow_init d) in
  drive_enabled (log o) false = in_motion (_state (world o)) /\
  (_state (world o) = stateIdle \/
   _state (world o) = statePosition \/
   _state (world o) = stateVelocity) /\
  ui_agrees (world o) /\
  scope_matches (world o).
Proof.
  intros Hq Hop.
  assert (Hgen : forall (l : list Slot) (w : World D),
             ui_agrees w -> scope_matches w -> never_raises (dev w) ->
             _state w <> stateHoming ->
             operated_slots l w ->
             let o := run_slots l w in
             drive_enabled (log o) (in_motion (_state w))
             = in_motion (_state (world o)) /\
             _state (world o) <> stateHoming /\
             ui_agrees (world o) /\ scope_matches (world o)).
  { clear. induction l as [|s l IH]; intros w Hag Hsm Hq Hnh Hop.
    - cbn. repeat split; assumption.
    - destruct Hop as [Hen Hop].
      destruct (slot_step s w Hag Hsm Hq Hnh Hen)
        as (Hag' & Hsm' & Hq' & Hnh' & Hdr).
      cbn [run_slots]. unfold bind.
      specialize (IH (world (handle s w)) Hag' Hsm' Hq' Hnh' Hop).
      cbn zeta in *.
      destruct (handle s w) as [[[]|e] la wa]; cbn [res log world] in *.
      + destruct (run_slots l wa) as [rb lb wb]; cbn [res log world] in *.
        rewrite drive_enabled_app, Hdr. exact IH.
      + repeat split; assumption. }
  destruct (Hgen l (ScopeWindow_init d)) as (H1 & H2 & H3 & H4).
  - reflexivity.
  - split; [reflexivity|]. intros p Hp. discriminate Hp.
  - exact Hq.
  - discriminate.
  - exact Hop.
  - cbn zeta. split; [exact H1|]. split; [|split; assumption].
    unfold ui_agrees in H3.
    destruct (_state (world (run_slots l (ScopeWindow_init d))));
      try discriminate H3; try (now elim H2); tauto.
Qed.

End SessionFacts.

(** X19 on the illustrated session. *)
Lemma drive_enabled_only_in_motion_witness :
  let o := run_slots demo_motion (ScopeWindow_init reliable) in
  operated_slots demo_motion (ScopeWindow_init reliable) /\
  res o = Ok tt /\
  _state (world o) = stateVelocity /\
  drive_enabled (log o) false = true.
Proof.
  intros o.
  assert (Hop : operated_slots demo_motion (ScopeWindow_init reliable)).
  { vm_compute. repeat split. }
  split; [exact Hop|]. split; [vm_compute; reflexivity|].
  split; [vm_compute; reflexivity|].
  destruct (@drive_enabled_only_in_motion Script scripted reliable demo_motion
              reliable_never_raises Hop) as (Hd & _).
  cbn zeta in Hd. subst o. rewrite Hd. vm_compute. reflexivity.
Defined.
